(** * bitcoin-etl SOPR dashboard: sample data, data access layer, price loader

    A shallow embedding of
    - [docs/sample_data.py]                       (module [SampleData]),
    - [bitcoin-sopr-dashboard/src/queries.py]     (module [Queries]),
    - [bitcoin-sopr-dashboard/etl/load_prices.py] (module [LoadPrices]),
    - [bitcoin-sopr-dashboard/main.py], data loading and metrics row
      (module [Dashboard]),
    followed by the properties of the specification.

    Conventions.
    - A calendar date is its proleptic Gregorian ordinal ([date.toordinal()]),
      an integer; [d - timedelta(days=i)] is [d - i].
    - A Python float is an exact rational ([Q]); [round(x, 4)] is rounding of
      the exact value to the nearest multiple of 1/10000, ties to even.
    - A Python [str] is a [string]; its characters are the code points
      below 256.
    - A call that may raise returns a [result]; [print] appends to a log that
      the function returns next to its result.
    - What the libraries and the outside world do (the random generator,
      pandas' reading of a string as a timestamp, the BigQuery service, Yahoo
      Finance, the operator at the terminal) is a variable of the enclosing
      section: every theorem holds for every behaviour of them. *)

From Stdlib Require Import ZArith QArith Qround Lqa List FinFun Sorted String Ascii
  Bool Lia.
From Equations Require Import Equations.
Import ListNotations.

Set Implicit Arguments.

(* ===================================================================== *)
(** * Python values shared by the three modules *)
(* ===================================================================== *)

Module Py.

(** The [Exception] subclasses the code names, and one case for all others. *)
Inductive exn : Type :=
| ValueError (msg : string)
| TypeError
| FileNotFoundError
| GoogleCloudError
| NotFound                    (* google.cloud.exceptions.NotFound *)
| OtherException (name : string).

(** [isinstance(e, GoogleCloudError)]: [NotFound] derives from it. *)
Definition is_GoogleCloudError (e : exn) : bool :=
  match e with GoogleCloudError | NotFound => true | _ => false end.

Definition is_FileNotFoundError (e : exn) : bool :=
  match e with FileNotFoundError => true | _ => false end.

Definition is_NotFound (e : exn) : bool :=
  match e with NotFound => true | _ => false end.

Definition is_ValueError (e : exn) : bool :=
  match e with ValueError _ => true | _ => false end.

Inductive result (A : Type) : Type :=
| Return (a : A)
| Raise (e : exn).
Arguments Raise {A} e.

Definition raises {A} (r : result A) : Prop := exists e, r = Raise e.

Definition raises_ValueError {A} (r : result A) : Prop :=
  exists msg, r = Raise (ValueError msg).

(** A two-column [pandas.DataFrame]: a date column and a numeric column,
    with their names; the default integer index is the position in [rows]. *)
Record DataFrame : Type := mkDataFrame {
  columns : list string;
  rows    : list (Z * Q)
}.

Definition len (df : DataFrame) : nat := List.length (rows df).
Definition empty (df : DataFrame) : bool :=
  match rows df with [] => true | _ => false end.
Definition dates (df : DataFrame) : list Z := map fst (rows df).
Definition values (df : DataFrame) : list Q := map snd (rows df).

End Py.
Import Py.

(* ===================================================================== *)
(** * Calendar dates and [datetime.strptime(s, '%Y-%m-%d')] *)
(* ===================================================================== *)

Module Calendar.
Local Open Scope Z_scope.

Definition is_leap (y : Z) : bool :=
  (y mod 4 =? 0) && (negb (y mod 100 =? 0) || (y mod 400 =? 0)).

Definition days_in_month (y m : Z) : Z :=
  if m =? 2 then (if is_leap y then 29 else 28)
  else if (m =? 4) || (m =? 6) || (m =? 9) || (m =? 11) then 30
  else 31.

Definition days_before_year (y : Z) : Z :=
  let p := y - 1 in p * 365 + p / 4 - p / 100 + p / 400.

Definition days_before_month (y m : Z) : Z :=
  nth (Z.to_nat m) [-1; 0; 31; 59; 90; 120; 151; 181; 212; 243; 273; 304; 334] 0
  + (if (2 <? m) && is_leap y then 1 else 0).

(** [date(y, m, d).toordinal()], [None] where [date(y, m, d)] raises. *)
Definition ymd2ord (y m d : Z) : option Z :=
  if (1 <=? y) && (y <=? 9999) && (1 <=? m) && (m <=? 12)
     && (1 <=? d) && (d <=? days_in_month y m)
  then Some (days_before_year y + days_before_month y m + d)
  else None.

(** ** The regular expression of ['%Y-%m-%d']

    [_strptime] turns the format into
    [(?P<Y>\d\d\d\d)-(?P<m>1[0-2]|0[1-9]|[1-9])-(?P<d>3[0-1]|[1-2]\d|0[1-9]|[1-9]| [1-9])],
    matches it at the start of the string and rejects the string when text
    remains after the match. *)

Definition digit (c : ascii) : option Z :=
  let n := Z.of_nat (nat_of_ascii c) in
  if (48 <=? n) && (n <=? 57) then Some (n - 48) else None.

Definition in_range (lo hi : Z) (c : ascii) : option Z :=
  match digit c with
  | Some v => if (lo <=? v) && (v <=? hi) then Some v else None
  | None => None
  end.

Definition is_char (x c : ascii) : bool := Ascii.eqb x c.

(** One alternative made of two character classes. *)
Definition two (p1 p2 : ascii -> option Z) (s : list ascii)
  : list (Z * list ascii) :=
  match s with
  | c1 :: c2 :: r =>
      match p1 c1, p2 c2 with
      | Some a, Some b => [(10 * a + b, r)]
      | _, _ => []
      end
  | _ => []
  end.

(** One alternative made of one character class. *)
Definition one (p : ascii -> option Z) (s : list ascii)
  : list (Z * list ascii) :=
  match s with
  | c :: r => match p c with Some a => [(a, r)] | None => [] end
  | _ => []
  end.

Definition blank (c : ascii) : option Z :=
  if is_char " " c then Some 0 else None.

(** The matches of each group, in the order the alternatives are tried. *)
Definition group_Y (s : list ascii) : list (Z * list ascii) :=
  match s with
  | a :: b :: c :: d :: r =>
      match digit a, digit b, digit c, digit d with
      | Some a, Some b, Some c, Some d =>
          [(1000 * a + 100 * b + 10 * c + d, r)]
      | _, _, _, _ => []
      end
  | _ => []
  end.

Definition group_m (s : list ascii) : list (Z * list ascii) :=
  two (in_range 1 1) (in_range 0 2) s
  ++ two (in_range 0 0) (in_range 1 9) s
  ++ one (in_range 1 9) s.

Definition group_d (s : list ascii) : list (Z * list ascii) :=
  two (in_range 3 3) (in_range 0 1) s
  ++ two (in_range 1 2) (in_range 0 9) s
  ++ two (in_range 0 0) (in_range 1 9) s
  ++ one (in_range 1 9) s
  ++ two blank (in_range 1 9) s.

Definition dash (s : list ascii) : option (list ascii) :=
  match s with
  | c :: r => if is_char "-" c then Some r else None
  | [] => None
  end.

(** Backtracking: the first alternative after which the rest matches. *)
Fixpoint first_match {A B} (k : A -> list ascii -> option B)
  (alts : list (A * list ascii)) : option B :=
  match alts with
  | [] => None
  | (a, r) :: alts' =>
      match k a r with
      | Some b => Some b
      | None => first_match k alts'
      end
  end.

(** The groups of the match and the text left after it. *)
Definition regex_ymd (s : list ascii) : option (Z * Z * Z * list ascii) :=
  first_match (fun y r1 =>
    match dash r1 with
    | None => None
    | Some r2 =>
        first_match (fun m r3 =>
          match dash r3 with
          | None => None
          | Some r4 => first_match (fun d r5 => Some (y, m, d, r5)) (group_d r4)
          end) (group_m r2)
    end) (group_Y s).

(** [datetime.strptime(s, '%Y-%m-%d')]: the date read, [None] where it
    raises [ValueError] (no match, unconverted data, no such day). *)
Definition strptime (s : string) : option Z :=
  match regex_ymd (list_ascii_of_string s) with
  | Some (y, m, d, []) => ymd2ord y m d
  | _ => None
  end.

End Calendar.

(* ===================================================================== *)
(** * docs/sample_data.py *)
(* ===================================================================== *)

Module SampleData.

(** ** Float helpers, on exact rationals *)

Definition Qltb (x y : Q) : bool := negb (Qle_bool y x).

(** Python's [min(a, b)] and [max(a, b)] of two arguments: the first one
    unless the second is strictly smaller (resp. larger). *)
Definition py_min (a b : Q) : Q := if Qltb b a then b else a.
Definition py_max (a b : Q) : Q := if Qltb a b then b else a.

(** Nearest integer, ties to even. *)
Definition round_half_even (x : Q) : Z :=
  let f := Qfloor x in
  let r := x - inject_Z f in
  if Qltb r (1 # 2) then f
  else if Qltb (1 # 2) r then (f + 1)%Z
  else if Z.even f then f else (f + 1)%Z.

(** [round(x, 4)]. *)
Definition round4 (x : Q) : Q :=
  Qmake (round_half_even (x * inject_Z 10000)) 10000.

Section Generator.

(** The [random] module: its hidden state, [random.seed(n)], which
    replaces the state, and [random.uniform(a, b)], which draws from it. *)
Variable rng_state : Type.
Variable seed : Z -> rng_state.
Variable uniform : Q -> Q -> rng_state -> Q * rng_state.

(** What a call can observe of the process: the generator's state and
    the day [datetime.now().date()] returns. *)
Record world : Type := mkWorld {
  rng : rng_state;
  today : Z
}.

(** Lines 20-25: the loop [for _ in range(days)], from [current]. *)
Fixpoint sopr_walk (days : nat) (current : Q) (r : rng_state)
  : list Q * rng_state :=
  match days with
  | O => ([], r)
  | S days' =>
      let (change, r1) := uniform (- (3 # 100)) (3 # 100) r in
      let current' :=
        py_max (85 # 100) (py_min (115 # 100) (current + change)) in
      let (rest, r2) := sopr_walk days' current' r1 in
      (round4 current' :: rest, r2)
  end.

(** Line 17: [[end_date - timedelta(days=i) for i in range(days)]]. *)
Definition days_back (end_date : Z) (days : nat) : list Z :=
  map (fun i => (end_date - Z.of_nat i)%Z) (seq 0 days).

Definition generate_sample_sopr_data (days : nat) (w : world)
  : DataFrame * world :=
  let r0 := seed 42 in
  let end_date := today w in
  let dates := days_back end_date days in
  let (sopr_values, r1) := sopr_walk days 1 r0 in
  (mkDataFrame ["date"; "sopr"]%string (combine dates sopr_values),
   mkWorld r1 (today w)).

(** Line 37: [pd.date_range(end=d, periods=n).date], oldest day first. *)
Definition date_range_end (end_date : Z) (periods : nat) : list Z :=
  map (fun i => (end_date - Z.of_nat (periods - 1) + Z.of_nat i)%Z)
      (seq 0 periods).

(** The module body, run once when the module is imported. *)
Definition SAMPLE_SOPR_DATA (w : world) : DataFrame :=
  fst (generate_sample_sopr_data 30 w).

Definition SAMPLE_PRICES (w : world) : DataFrame :=
  mkDataFrame ["date"; "price_usd"]%string
    (combine (date_range_end (today w) 30)
             (map (fun i => inject_Z (42000 + Z.of_nat i * 100)) (seq 0 30))).

End Generator.

(** A small linear congruential generator, to run the definitions on
    concrete inputs; the theorems hold for every generator. *)
Definition lcg_seed (n : Z) : Z := n.
Definition lcg_uniform (a b : Q) (s : Z) : Q * Z :=
  let s' := ((s * 1103515245 + 12345) mod 2147483648)%Z in
  (Qred (a + (b - a) * (s' # 2147483648)), s').

Definition lcg_world (day : Z) : world Z := mkWorld 0%Z day.

End SampleData.

(* ===================================================================== *)
(** * bitcoin-sopr-dashboard/src/queries.py *)
(* ===================================================================== *)

Module Queries.

(** The lines the two functions print, one constructor per [print]. *)
Inductive msg : Type :=
| UsingSampleSopr                          (* line 40 *)
| QueryingSopr (start_date end_date : string)   (* line 72 *)
| RetrievedRows (n : nat)                  (* line 76 *)
| BigQueryError (e : exn)                  (* lines 80, 156 *)
| SqlFileNotFound                          (* line 84 *)
| UnexpectedError (e : exn)                (* lines 88, 160 *)
| FallingBack                              (* lines 81, 85, 89, 157, 161 *)
| UsingSamplePrices                        (* line 110 *)
| QueryingPrices (start_date end_date : string) (* line 148 *)
| RetrievedPriceRecords (n : nat).         (* line 152 *)

Definition is_FallingBack (m : msg) : bool :=
  match m with FallingBack => true | _ => false end.

(** How many times a run announced the fallback. *)
Definition fallbacks (log : list msg) : nat :=
  List.length (filter is_FallingBack log).

(** What one run of the body of the [try] meets at the remote side. *)
Inductive attempt : Type :=
| FailsEarly (e : exn)   (* raised before the query is announced: reading
                            the SQL file, building the client or the job
                            configuration *)
| FailsLate (e : exn)    (* raised by [client.query] or [to_dataframe] *)
| Succeeds (df : DataFrame).

Definition attempt_raises (a : attempt) : Prop :=
  match a with Succeeds _ => False | _ => True end.

Section DataAccess.

(** The process the module was imported in. *)
Variable rng_state : Type.
Variable seed : Z -> rng_state.
Variable uniform : Q -> Q -> rng_state -> Q * rng_state.
Variable import_world : SampleData.world rng_state.

(** pandas' reading of a [str] compared with a datetime column: the day
    it denotes, [None] where pandas cannot read it as a timestamp. *)
Variable Timestamp : string -> option Z.

(** The remote side, for the bounds a query is run with. *)
Variable bigquery_sopr : string -> string -> attempt.
Variable bigquery_prices : string -> string -> attempt.

(** Line 20: the frames imported from [docs.sample_data]. *)
Definition SAMPLE_SOPR_DATA : DataFrame :=
  SampleData.SAMPLE_SOPR_DATA seed uniform import_world.
Definition SAMPLE_PRICES : DataFrame :=
  SampleData.SAMPLE_PRICES import_world.

(** [column >= s] and [column <= s] for a datetime column and a [str]:
    a boolean column, or [TypeError] (invalid comparison) when the
    string is no timestamp. *)
Definition ge_str (column : list Z) (s : string) : result (list bool) :=
  match Timestamp s with
  | Some t => Return (map (fun d => (t <=? d)%Z) column)
  | None => Raise TypeError
  end.

Definition le_str (column : list Z) (s : string) : result (list bool) :=
  match Timestamp s with
  | Some t => Return (map (fun d => (d <=? t)%Z) column)
  | None => Raise TypeError
  end.

(** [m1 & m2] on boolean columns of one length. *)
Definition mask_and (m1 m2 : list bool) : list bool :=
  map (fun p => fst p && snd p) (combine m1 m2).

(** [df[mask].reset_index(drop=True)]. *)
Definition boolean_index (df : DataFrame) (mask : list bool) : DataFrame :=
  mkDataFrame (columns df)
    (map fst (filter (fun p => snd p) (combine (rows df) mask))).

(** Lines 41-44 and 111-114: copy, convert the date column, build the
    mask, select. *)
Definition between (sample : DataFrame) (start_date end_date : string)
  : result DataFrame :=
  match ge_str (dates sample) start_date with
  | Raise e => Raise e
  | Return m1 =>
      match le_str (dates sample) end_date with
      | Raise e => Raise e
      | Return m2 => Return (boolean_index sample (mask_and m1 m2))
      end
  end.

(** Lines 116-117: [rename(columns={'price_usd': 'price'})]. *)
Definition rename_price_usd (df : DataFrame) : DataFrame :=
  mkDataFrame
    (map (fun c => if String.eqb c "price_usd" then "price"%string else c)
         (columns df))
    (rows df).

(** Lines 47-51 and 121-125. *)
Definition validate (start_date end_date : string) : result unit :=
  match Calendar.strptime start_date with
  | None => Raise (ValueError "Invalid date format. Use YYYY-MM-DD")
  | Some _ =>
      match Calendar.strptime end_date with
      | None => Raise (ValueError "Invalid date format. Use YYYY-MM-DD")
      | Some _ => Return tt
      end
  end.

(** Lines 54-77: the body of the [try], with what it prints. *)
Definition try_sopr (start_date end_date : string)
  : list msg * result DataFrame :=
  match bigquery_sopr start_date end_date with
  | FailsEarly e => ([], Raise e)
  | FailsLate e => ([QueryingSopr start_date end_date], Raise e)
  | Succeeds df =>
      ([QueryingSopr start_date end_date; RetrievedRows (len df)], Return df)
  end.

(** Lines 79-90: the clause that catches [e], up to its [return]. *)
Definition except_sopr (e : exn) : list msg :=
  if is_GoogleCloudError e then [BigQueryError e; FallingBack]
  else if is_FileNotFoundError e then [SqlFileNotFound; FallingBack]
  else [UnexpectedError e; FallingBack].

Equations query_sopr (start_date end_date : string) (use_sample : bool)
  : list msg * result DataFrame
  by wf (if use_sample then 0 else 1)%nat lt :=
query_sopr start_date end_date true :=
  ([UsingSampleSopr], between SAMPLE_SOPR_DATA start_date end_date);
query_sopr start_date end_date false
  with validate start_date end_date := {
  | Raise e := ([], Raise e);
  | Return _ with try_sopr start_date end_date := {
    | (log, Return df) := (log, Return df);
    | (log, Raise e) :=
        let r := query_sopr start_date end_date true in
        (log ++ except_sopr e ++ fst r, snd r) } }.

(** Lines 128-153. *)
Definition try_prices (start_date end_date : string)
  : list msg * result DataFrame :=
  match bigquery_prices start_date end_date with
  | FailsEarly e => ([], Raise e)
  | FailsLate e => ([QueryingPrices start_date end_date], Raise e)
  | Succeeds df =>
      ([QueryingPrices start_date end_date; RetrievedPriceRecords (len df)],
       Return df)
  end.

(** Lines 155-162. *)
Definition except_prices (e : exn) : list msg :=
  if is_GoogleCloudError e then [BigQueryError e; FallingBack]
  else [UnexpectedError e; FallingBack].

Equations query_prices (start_date end_date : string) (use_sample : bool)
  : list msg * result DataFrame
  by wf (if use_sample then 0 else 1)%nat lt :=
query_prices start_date end_date true :=
  ([UsingSamplePrices],
   match between SAMPLE_PRICES start_date end_date with
   | Raise e => Raise e
   | Return result => Return (rename_price_usd result)
   end);
query_prices start_date end_date false
  with validate start_date end_date := {
  | Raise e := ([], Raise e);
  | Return _ with try_prices start_date end_date := {
    | (log, Return df) := (log, Return df);
    | (log, Raise e) :=
        let r := query_prices start_date end_date true in
        (log ++ except_prices e ++ fst r, snd r) } }.

End DataAccess.

End Queries.

(* ===================================================================== *)
(** * bitcoin-sopr-dashboard/etl/load_prices.py *)
(* ===================================================================== *)

Module LoadPrices.

(** ** [str.strip()] and [str.lower()] *)

Definition isspace (c : ascii) : bool :=
  let n := nat_of_ascii c in
  ((9 <=? n) && (n <=? 13) || (28 <=? n) && (n <=? 32)
   || (n =? 133) || (n =? 160))%nat.

Fixpoint lstrip (s : string) : string :=
  match s with
  | String c r => if isspace c then lstrip r else s
  | EmptyString => EmptyString
  end.

Fixpoint rstrip (s : string) : string :=
  match s with
  | String c r =>
      match rstrip r with
      | EmptyString => if isspace c then EmptyString else String c EmptyString
      | r' => String c r'
      end
  | EmptyString => EmptyString
  end.

Definition strip (s : string) : string := rstrip (lstrip s).

Definition lower_char (c : ascii) : ascii :=
  let n := nat_of_ascii c in
  if ((65 <=? n) && (n <=? 90)
      || (192 <=? n) && (n <=? 222) && negb (n =? 215))%nat
  then ascii_of_nat (n + 32) else c.

Fixpoint lower (s : string) : string :=
  match s with
  | String c r => String (lower_char c) (lower r)
  | EmptyString => EmptyString
  end.

(** [x in l] for a list of [str]. *)
Definition str_in (x : string) (l : list string) : bool :=
  existsb (String.eqb x) l.

(** ** Rows *)

(** A row of [Ticker.history]: the bar's timestamp (day, seconds into the
    day) and its columns. *)
Record quote : Type := mkQuote {
  Date : Z * Z;
  Open : Q; High : Q; Low : Q; Close : Q; Volume : Q;
  Dividends : Q; StockSplits : Q
}.

(** A row of the [daily_prices] table. *)
Record price_row : Type := mkPriceRow {
  date : Z;
  open : Q; high : Q; low : Q; close : Q; volume : Q
}.

(** The warehouse: the [daily_prices] table ([None] while it does not
    exist) and the load jobs that ran, latest first. *)
Record warehouse : Type := mkWarehouse {
  table : option (list price_row);
  load_jobs : list (list price_row)
}.

Definition rows_written (before after : warehouse) : nat :=
  List.length (List.concat (firstn (List.length (load_jobs after)
                               - List.length (load_jobs before))
                              (load_jobs after))).

(** The lines the job prints. *)
Inductive msg : Type :=
| Fetching (start_date end_date : string)   (* line 54 *)
| Fetched (n : nat)                         (* line 78 *)
| Uploading                                 (* line 95 *)
| UploadComplete                            (* line 117 *)
| TableAlreadyContains (n : nat)            (* line 132 *)
| OperationCancelled                        (* line 135 *)
| NoDataFetched                             (* line 145 *)
| Complete (final_count : nat).             (* line 153 *)

(** The three places [main] returns from. *)
Inductive exit : Type :=
| Cancelled    (* line 136 *)
| NoData       (* line 146 *)
| Loaded.      (* end of the body *)

Section Job.

(** [config.GCP_PROJECT_ID] and [config.UTXO_START_DATE]. *)
Variable GCP_PROJECT_ID : option string.
Variable UTXO_START_DATE : string.
(** [datetime.now().strftime("%Y-%m-%d")]. *)
Variable now : string.
(** What the operator types at the prompt. *)
Variable operator : string.
(** Yahoo Finance: the history of BTC-USD between two days. *)
Variable history : string -> string -> result (list quote).
(** The load job for a frame: [None] when it completes. *)
Variable load_job_error : list price_row -> option exn.

(** config.py, lines 37-41. *)
Definition validate_config : result bool :=
  match GCP_PROJECT_ID with
  | None | Some EmptyString =>
      Raise (ValueError "GCP_PROJECT_ID environment variable not set")
  | Some _ => Return true
  end.

(** [client.get_table(table_id)]. *)
Definition get_table (w : warehouse) : result (list price_row) :=
  match table w with
  | None => Raise NotFound
  | Some t => Return t
  end.

(** Lines 22-40. *)
Definition check_existing_data (w : warehouse) : result nat :=
  match get_table w with
  | Return t => Return (List.length t)
  | Raise e => if is_NotFound e then Return 0%nat else Raise e
  end.

(** Lines 60-76: the columns kept, the date without its time of day. *)
Definition to_price_row (q : quote) : price_row :=
  mkPriceRow (fst (Date q)) (Open q) (High q) (Low q) (Close q) (Volume q).

(** Lines 43-79. *)
Definition fetch_btc_prices (start_date end_date : string)
  : list msg * result (list price_row) :=
  match history start_date end_date with
  | Raise e => ([Fetching start_date end_date], Raise e)
  | Return df =>
      let df := map to_price_row df in
      ([Fetching start_date end_date; Fetched (List.length df)], Return df)
  end.

(** Lines 82-117: a load job with [WRITE_TRUNCATE] replaces the table. *)
Definition upload_to_bigquery (df : list price_row) (w : warehouse)
  : (list msg * result unit) * warehouse :=
  match load_job_error df with
  | Some e => (([Uploading], Raise e), w)
  | None =>
      (([Uploading; UploadComplete], Return tt),
       mkWarehouse (Some df) (df :: load_jobs w))
  end.

(** Lines 138-153: [main] from the fetch on, after [log] was printed. *)
Definition fetch_and_load (log : list msg) (w : warehouse)
  : (list msg * result exit) * warehouse :=
  let start_date := UTXO_START_DATE in
  let end_date := now in
  match fetch_btc_prices start_date end_date with
  | (log1, Raise e) => ((log ++ log1, Raise e), w)
  | (log1, Return df) =>
      match df with
      | [] => ((log ++ log1 ++ [NoDataFetched], Return NoData), w)
      | _ :: _ =>
          match upload_to_bigquery df w with
          | ((log2, Raise e), w') => ((log ++ log1 ++ log2, Raise e), w')
          | ((log2, Return _), w') =>
              match check_existing_data w' with
              | Raise e => ((log ++ log1 ++ log2, Raise e), w')
              | Return final_count =>
                  ((log ++ log1 ++ log2 ++ [Complete final_count],
                    Return Loaded), w')
              end
          end
      end
  end.

(** Lines 120-153. *)
Definition main (w : warehouse) : (list msg * result exit) * warehouse :=
  match validate_config with
  | Raise e => (([], Raise e), w)
  | Return _ =>
      match check_existing_data w with
      | Raise e => (([], Raise e), w)
      | Return existing_rows =>
          if (0 <? existing_rows)%nat then
            let response := lower (strip operator) in
            if negb (str_in response ["yes"; "y"]%string) then
              (([TableAlreadyContains existing_rows; OperationCancelled],
                Return Cancelled), w)
            else fetch_and_load [TableAlreadyContains existing_rows] w
          else fetch_and_load [] w
      end
  end.

End Job.

End LoadPrices.

(* ===================================================================== *)
(** * bitcoin-sopr-dashboard/main.py: loading the data and the metrics row *)
(* ===================================================================== *)

Module Dashboard.

(** A [datetime.date], as the date pickers return it. *)
Record date : Type := mkDate { year : Z; month : Z; day : Z }.

Definition toordinal (d : date) : option Z :=
  Calendar.ymd2ord (year d) (month d) (day d).

Definition digit_char (k : Z) : ascii := ascii_of_nat (48 + Z.to_nat k).

(** Lines 241-242: [d.strftime('%Y-%m-%d')], four digits for the year (all
    platforms agree from year 1000 on), two for the month and the day. *)
Definition strftime (d : date) : string :=
  string_of_list_ascii
    [ digit_char (year d / 1000); digit_char (year d / 100 mod 10);
      digit_char (year d / 10 mod 10); digit_char (year d mod 10);
      "-"%char;
      digit_char (month d / 10); digit_char (month d mod 10);
      "-"%char;
      digit_char (day d / 10); digit_char (day d mod 10) ].

(** What lines 245-253 leave behind: the two frames with
    [data_loaded = True], or the error shown with [data_loaded = False]. *)
Inductive loaded : Type :=
| DataLoaded (sopr_df prices_df : DataFrame)
| LoadFailed (e : exn).

Section Page.

Variable rng_state : Type.
Variable seed : Z -> rng_state.
Variable uniform : Q -> Q -> rng_state -> Q * rng_state.
Variable import_world : SampleData.world rng_state.
Variable Timestamp : string -> option Z.
Variable bigquery_sopr : string -> string -> Queries.attempt.
Variable bigquery_prices : string -> string -> Queries.attempt.

(** Lines 131-140, when the cache holds no entry for the arguments. *)
Definition fetch_sopr_data (start_date end_date : string) (use_sample : bool)
  : list Queries.msg * result DataFrame :=
  Queries.query_sopr seed uniform import_world Timestamp bigquery_sopr
    start_date end_date use_sample.

Definition fetch_price_data (start_date end_date : string) (use_sample : bool)
  : list Queries.msg * result DataFrame :=
  Queries.query_prices import_world Timestamp bigquery_prices
    start_date end_date use_sample.

(** Lines 241-253. *)
Definition load_data (start_date end_date : date) (use_sample_sopr : bool)
  : list Queries.msg * loaded :=
  let start_str := strftime start_date in
  let end_str := strftime end_date in
  match fetch_sopr_data start_str end_str use_sample_sopr with
  | (log1, Raise e) => (log1, LoadFailed e)
  | (log1, Return sopr_df) =>
      match fetch_price_data start_str end_str false with
      | (log2, Raise e) => (log1 ++ log2, LoadFailed e)
      | (log2, Return prices_df) =>
          (log1 ++ log2, DataLoaded sopr_df prices_df)
      end
  end.

End Page.

(** Line 261: [sopr_df['sopr'].iloc[0] if len(sopr_df) > 0 else 0]. *)
Definition current_sopr (sopr_df : DataFrame) : Q :=
  match values sopr_df with
  | v :: _ => v
  | [] => 0
  end.

Definition Qsum (l : list Q) : Q := fold_right Qplus 0 l.

(** Line 262: [sopr_df['sopr'].mean()]; [None] is the [nan] of an empty
    column. *)
Definition avg_sopr (sopr_df : DataFrame) : option Q :=
  match values sopr_df with
  | [] => None
  | vs => Some (Qsum vs / inject_Z (Z.of_nat (List.length vs)))
  end.

(** ['price' in prices_df.columns]. *)
Definition has_price_column (prices_df : DataFrame) : bool :=
  existsb (String.eqb "price") (columns prices_df).

(** Lines 264-272: [(current_price, price_change)], the price column
    being the numeric column of the frame; [None] where the last price is
    zero and numpy divides by it. *)
Definition price_metrics (prices_df : DataFrame) : option (Q * Q) :=
  if negb (empty prices_df) && has_price_column prices_df then
    match values prices_df with
    | [] => Some (0, 0)
    | first :: rest =>
        let current_price := first in
        if (1 <? len prices_df)%nat then
          let final := last rest first in
          if Qeq_bool final 0 then None
          else Some (current_price, ((first / final) - 1) * 100)
        else Some (current_price, 0)
    end
  else Some (0, 0).

(** Lines 280-285. *)
Inductive break_even : Type := AboveBreakEven | BelowBreakEven.
Inductive delta_color : Type := normal | inverse.

Definition sopr_delta (current_sopr : Q) : break_even * delta_color :=
  (if Qle_bool 1 current_sopr then AboveBreakEven else BelowBreakEven,
   if Qle_bool 1 current_sopr then normal else inverse).

(** Lines 304-315. *)
Inductive sentiment : Type :=
| ProfitTaking | Neutral | MildFear | Capitulation.

Definition market_sentiment (current_sopr : Q) : sentiment :=
  if Qle_bool (105 # 100) current_sopr then ProfitTaking
  else if Qle_bool 1 current_sopr then Neutral
  else if Qle_bool (95 # 100) current_sopr then MildFear
  else Capitulation.

End Dashboard.

(* ===================================================================== *)
(** * Vocabulary of the further properties *)
(* ===================================================================== *)

(** Each value of [l] is within [bound] of the value before it, the first
    one of [prev]. *)
Fixpoint steps_within (bound prev : Q) (l : list Q) : Prop :=
  match l with
  | [] => True
  | v :: l' => (- bound <= v - prev <= bound)%Q /\ steps_within bound v l'
  end.

(** [random.uniform(a, b)] returns a value between [a] and [b]. *)
Definition draws_in_range {rng_state : Type}
  (uniform : Q -> Q -> rng_state -> Q * rng_state) : Prop :=
  forall (a b : Q) (r : rng_state),
    (a <= b)%Q -> (a <= fst (uniform a b r) <= b)%Q.

(** A string made of whitespace only (the empty string included). *)
Definition blank_answer (s : string) : Prop :=
  Forall (fun c => LoadPrices.isspace c = true) (list_ascii_of_string s).

(* ===================================================================== *)
(** * Vocabulary of the properties, and a process to run the code in *)
(* ===================================================================== *)

(** The band SOPR values are clamped to. *)
Definition in_band (v : Q) : Prop := (85 # 100 <= v <= 115 # 100)%Q.

(** A row whose date lies between two days, ends included. *)
Definition within (ds de : Z) (row : Z * Q) : bool :=
  ((ds <=? fst row) && (fst row <=? de))%Z.

(** [s] is a valid YYYY-MM-DD date, the day [d], and pandas reads it as
    that day too. *)
Definition valid_date (Timestamp : string -> option Z) (s : string) (d : Z)
  : Prop :=
  Calendar.strptime s = Some d /\ Timestamp s = Some d.

(** A process imported on 2024-01-01, where pandas reads as a timestamp
    exactly the strings [strptime] reads, with a few behaviours of the
    remote side, of Yahoo Finance and of the warehouse. *)
Module Demo.

Definition import_world : SampleData.world Z := SampleData.lcg_world 738886.

Definition Timestamp : string -> option Z := Calendar.strptime.

(** The same reading, without the one form of the day that [strptime]
    accepts and pandas does not read as a timestamp: a blank in place of
    the leading zero, as in "2024-01- 5". *)
Definition Timestamp_no_blank (s : string) : option Z :=
  if existsb (Ascii.eqb " "%char) (list_ascii_of_string s) then None
  else Calendar.strptime s.

Definition bigquery_down (_ _ : string) : Queries.attempt :=
  Queries.FailsLate GoogleCloudError.

Definition bigquery_empty (_ _ : string) : Queries.attempt :=
  Queries.Succeeds (mkDataFrame ["date"; "sopr"]%string []).

Definition GCP_PROJECT_ID : option string := Some "my-project"%string.

Definition a_row : LoadPrices.price_row :=
  LoadPrices.mkPriceRow 738886 42000 42500 41800 42300 1000.

Definition hundred_rows : list LoadPrices.price_row := repeat a_row 100.

Definition warehouse_100 : LoadPrices.warehouse :=
  LoadPrices.mkWarehouse (Some hundred_rows) [].

Definition a_quote : LoadPrices.quote :=
  LoadPrices.mkQuote (738887, 0)%Z 42300 43000 42100 42900 1200 0 0.

Definition history_one (_ _ : string) : result (list LoadPrices.quote) :=
  Return [a_quote].

Definition history_none (_ _ : string) : result (list LoadPrices.quote) :=
  Return [].

Definition load_ok (_ : list LoadPrices.price_row) : option exn := None.

End Demo.

(* ===================================================================== *)
(** * The code on concrete inputs *)
(* ===================================================================== *)

Example strptime_2024_01_01 :
  Calendar.strptime "2024-01-01" = Some 738886%Z.
Proof. reflexivity. Qed.

Example strptime_short_fields :
  Calendar.strptime "2024-1-5" = Calendar.strptime "2024-01-05".
Proof. reflexivity. Qed.

Example strptime_feb_30 : Calendar.strptime "2024-02-30" = None.
Proof. reflexivity. Qed.

Example strptime_leap_day :
  Calendar.strptime "2024-02-29" = Some 738945%Z
  /\ Calendar.strptime "2023-02-29" = None.
Proof. split; reflexivity. Qed.

Example Timestamp_no_blank_reads_padded_day :
  Demo.Timestamp_no_blank "2024-01-05" = Calendar.strptime "2024-01- 5"
  /\ Demo.Timestamp_no_blank "2024-01- 5" = None.
Proof. split; reflexivity. Qed.

Example strptime_unconverted :
  Calendar.strptime "2024-01-15T00:00:00" = None.
Proof. reflexivity. Qed.

Example sample_walk_3 :
  rows (fst (SampleData.generate_sample_sopr_data
               SampleData.lcg_seed SampleData.lcg_uniform 3
               Demo.import_world))
  = [ (738886%Z, 10049 # 10000) ; (738885%Z, 10061 # 10000) ;
      (738884%Z, 10041 # 10000) ].
Proof. vm_compute. reflexivity. Qed.

Example round4_ties_to_even :
  SampleData.round4 (100005 # 100000) = 10000 # 10000
  /\ SampleData.round4 (100015 # 100000) = 10002 # 10000.
Proof. split; reflexivity. Qed.

Example strip_lower_yes :
  LoadPrices.lower (LoadPrices.strip "  YeS ") = "yes"%string.
Proof. reflexivity. Qed.

(** The remote side is down: the price query falls back once. *)
Example query_prices_falls_back :
  Queries.query_prices Demo.import_world Demo.Timestamp Demo.bigquery_down
    "2023-12-30" "2024-01-31" false
  = ([Queries.QueryingPrices "2023-12-30" "2024-01-31";
      Queries.BigQueryError GoogleCloudError; Queries.FallingBack;
      Queries.UsingSamplePrices],
     Return (mkDataFrame ["date"; "price"]%string
               [(738884%Z, 44700); (738885%Z, 44800); (738886%Z, 44900)])).
Proof. vm_compute. reflexivity. Qed.

(** A date that does not exist: reported with [use_sample=False], a
    [TypeError] out of the comparison with [use_sample=True]. *)
Example query_sopr_feb_30_live :
  Queries.query_sopr SampleData.lcg_seed SampleData.lcg_uniform
    Demo.import_world Demo.Timestamp Demo.bigquery_down
    "2024-02-30" "2024-03-01" false
  = ([], Raise (ValueError "Invalid date format. Use YYYY-MM-DD")).
Proof. vm_compute. reflexivity. Qed.

Example query_sopr_feb_30_sample :
  Queries.query_sopr SampleData.lcg_seed SampleData.lcg_uniform
    Demo.import_world Demo.Timestamp Demo.bigquery_down
    "2024-02-30" "2024-03-01" true
  = ([Queries.UsingSampleSopr], Raise TypeError).
Proof. vm_compute. reflexivity. Qed.

(** The job on an empty warehouse with one bar fetched. *)
Example main_loads_one_row :
  LoadPrices.main Demo.GCP_PROJECT_ID "2019-01-01" "2024-01-02" ""
    Demo.history_one Demo.load_ok (LoadPrices.mkWarehouse None [])
  = (([LoadPrices.Fetching "2019-01-01" "2024-01-02"; LoadPrices.Fetched 1;
       LoadPrices.Uploading; LoadPrices.UploadComplete; LoadPrices.Complete 1],
      Return LoadPrices.Loaded),
     LoadPrices.mkWarehouse
       (Some [LoadPrices.to_price_row Demo.a_quote])
       [[LoadPrices.to_price_row Demo.a_quote]]).
Proof. reflexivity. Qed.

(* ===================================================================== *)
(** * Properties of the sample data *)
(* ===================================================================== *)

Section SampleDataFacts.
Import SampleData.
Local Open Scope Q_scope.

Lemma Qltb_true (x y : Q) : Qltb x y = true -> x < y.
Proof.
  unfold Qltb. destruct (Qle_bool y x) eqn:E; [discriminate|].
  intros _. apply Qnot_le_lt. intro H.
  apply Qle_bool_iff in H. congruence.
Qed.

Lemma Qltb_false (x y : Q) : Qltb x y = false -> y <= x.
Proof.
  unfold Qltb. destruct (Qle_bool y x) eqn:E; [|discriminate].
  intros _. now apply Qle_bool_iff.
Qed.

(** The clamp of line 24 lands in the band, whatever it is given. *)
Lemma clamp_in_band (x : Q) :
  85 # 100 <= py_max (85 # 100) (py_min (115 # 100) x) <= 115 # 100.
Proof.
  unfold py_max, py_min.
  destruct (Qltb x (115 # 100)) eqn:Hmin;
    destruct (Qltb (85 # 100) _) eqn:Hmax;
    try apply Qltb_true in Hmin; try apply Qltb_false in Hmin;
    try apply Qltb_true in Hmax; try apply Qltb_false in Hmax;
    lra.
Qed.

Lemma round_half_even_lower (z : Z) (x : Q) :
  inject_Z z <= x -> (z <= round_half_even x)%Z.
Proof.
  intros H. unfold round_half_even.
  assert (Hf : (z <= Qfloor x)%Z).
  { rewrite <- (Qfloor_Z z). now apply Qfloor_resp_le. }
  destruct (Qltb _ _); [exact Hf|].
  destruct (Qltb _ _); [lia|].
  destruct (Z.even _); lia.
Qed.

Lemma round_half_even_upper (z : Z) (x : Q) :
  x <= inject_Z z -> (round_half_even x <= z)%Z.
Proof.
  intros H. unfold round_half_even.
  assert (Hf : (Qfloor x <= z)%Z).
  { rewrite <- (Qfloor_Z z). now apply Qfloor_resp_le. }
  pose proof (Qfloor_le x) as Hfl.
  destruct (Qltb (x - inject_Z (Qfloor x)) (1 # 2)) eqn:E1; [exact Hf|].
  apply Qltb_false in E1.
  assert (Hlt : (Qfloor x < z)%Z).
  { destruct (Z.eq_dec (Qfloor x) z) as [Heq|Hne]; [|lia].
    rewrite Heq in E1. lra. }
  destruct (Qltb _ _); [lia|].
  destruct (Z.even _); lia.
Qed.

(** Rounding to four places keeps a value of the band in the band: both
    ends are multiples of 1/10000. *)
Lemma round4_in_band (x : Q) :
  85 # 100 <= x <= 115 # 100 -> 85 # 100 <= round4 x <= 115 # 100.
Proof.
  intros [Hlo Hhi]. unfold round4.
  assert (H1 : (8500 <= round_half_even (x * inject_Z 10000))%Z).
  { apply round_half_even_lower.
    change (inject_Z 8500) with (8500 # 1). change (inject_Z 10000) with (10000 # 1).
    lra. }
  assert (H2 : (round_half_even (x * inject_Z 10000) <= 11500)%Z).
  { apply round_half_even_upper.
    change (inject_Z 11500) with (11500 # 1). change (inject_Z 10000) with (10000 # 1).
    lra. }
  unfold Qle; simpl. lia.
Qed.

Section AnyGenerator.
Variable rng_state : Type.
Variable seed : Z -> rng_state.
Variable uniform : Q -> Q -> rng_state -> Q * rng_state.

Lemma sopr_walk_length (days : nat) :
  forall current r,
    List.length (fst (sopr_walk uniform days current r)) = days.
Proof.
  induction days as [|days IH]; intros current r; simpl; [reflexivity|].
  destruct (uniform _ _ r) as [change r1].
  specialize (IH (py_max (85 # 100) (py_min (115 # 100) (current + change))) r1).
  destruct (sopr_walk _ _ _ r1) as [rest r2]. simpl in *. now rewrite IH.
Qed.

Lemma sopr_walk_in_band (days : nat) :
  forall current r,
    Forall in_band (fst (sopr_walk uniform days current r)).
Proof.
  induction days as [|days IH]; intros current r; simpl; [constructor|].
  destruct (uniform _ _ r) as [change r1].
  specialize (IH (py_max (85 # 100) (py_min (115 # 100) (current + change))) r1).
  destruct (sopr_walk _ _ _ r1) as [rest r2]. simpl in *.
  constructor; [|exact IH].
  apply round4_in_band, clamp_in_band.
Qed.

Lemma days_back_length (d : Z) (n : nat) :
  List.length (days_back d n) = n.
Proof. unfold days_back. now rewrite length_map, length_seq. Qed.

Lemma generate_rows (days : nat) (w : world rng_state) :
  rows (fst (generate_sample_sopr_data seed uniform days w))
  = combine (days_back (today w) days)
            (fst (sopr_walk uniform days 1 (seed 42))).
Proof.
  unfold generate_sample_sopr_data.
  destruct (sopr_walk _ _ _ _) as [vs r1]. reflexivity.
Qed.

Lemma generate_dates (days : nat) (w : world rng_state) :
  dates (fst (generate_sample_sopr_data seed uniform days w))
  = days_back (today w) days.
Proof.
  unfold dates. rewrite generate_rows.
  generalize (sopr_walk_length days 1 (seed 42)).
  generalize (days_back_length (today w) days).
  generalize (fst (sopr_walk uniform days 1 (seed 42))) as vs.
  generalize (days_back (today w) days) as ds.
  intros ds vs H1 H2. rewrite <- H2 in H1. clear H2.
  revert vs H1. induction ds as [|d ds IH]; intros [|v vs] H; simpl in *;
    try discriminate; [reflexivity|].
  f_equal. apply IH. congruence.
Qed.

Lemma generate_values (days : nat) (w : world rng_state) :
  values (fst (generate_sample_sopr_data seed uniform days w))
  = fst (sopr_walk uniform days 1 (seed 42)).
Proof.
  unfold values. rewrite generate_rows.
  generalize (sopr_walk_length days 1 (seed 42)).
  generalize (days_back_length (today w) days).
  generalize (fst (sopr_walk uniform days 1 (seed 42))) as vs.
  generalize (days_back (today w) days) as ds.
  intros ds vs H1 H2. rewrite <- H2 in H1. clear H2.
  revert vs H1. induction ds as [|d ds IH]; intros [|v vs] H; simpl in *;
    try discriminate; [reflexivity|].
  f_equal. apply IH. congruence.
Qed.

End AnyGenerator.

End SampleDataFacts.

(** C4. For every number of days, and whatever the generator draws at each
    step, [generate_sample_sopr_data] returns one sopr value per day and
    each of them lies in the closed interval from 0.85 to 1.15. *)
Theorem C4_sopr_values_in_band :
  forall (rng_state : Type) (seed : Z -> rng_state)
         (uniform : Q -> Q -> rng_state -> Q * rng_state)
         (day_count : nat) (w : SampleData.world rng_state),
    let series :=
      fst (SampleData.generate_sample_sopr_data seed uniform day_count w) in
    len series = day_count
    /\ Forall (fun sopr => 0.85 <= sopr <= 1.15)%Q (values series).
Proof.
  intros rng_state seed uniform day_count w series. subst series. split.
  - unfold len. rewrite <- (length_map fst).
    change (map fst (rows ?d)) with (dates d).
    rewrite generate_dates. apply days_back_length.
  - rewrite generate_values. apply sopr_walk_in_band.
Qed.

(** C6. With the seed fixed at 42 inside the function, the series of 30
    days does not depend on the state the generator is in when the call
    starts: two calls on the same day return the same dates with the same
    sopr values, and so does a second call made right after a first. *)
Theorem C6_generate_deterministic :
  forall (rng_state : Type) (seed : Z -> rng_state)
         (uniform : Q -> Q -> rng_state -> Q * rng_state)
         (r1 r2 : rng_state) (day : Z),
    let gen := SampleData.generate_sample_sopr_data seed uniform 30 in
    fst (gen (SampleData.mkWorld r1 day)) = fst (gen (SampleData.mkWorld r2 day))
    /\ fst (gen (snd (gen (SampleData.mkWorld r1 day))))
       = fst (gen (SampleData.mkWorld r1 day)).
Proof.
  intros rng_state seed uniform r1 r2 day gen. subst gen.
  unfold SampleData.generate_sample_sopr_data.
  destruct (SampleData.sopr_walk uniform 30 1 (seed 42%Z)) as [vs r'].
  split; reflexivity.
Qed.

(* ===================================================================== *)
(** * Properties of the data access layer *)
(* ===================================================================== *)

Section DataAccessFacts.
Import Queries.

Variable rng_state : Type.
Variable seed : Z -> rng_state.
Variable uniform : Q -> Q -> rng_state -> Q * rng_state.
Variable import_world : SampleData.world rng_state.
Variable Timestamp : string -> option Z.
Variable bigquery_sopr : string -> string -> attempt.
Variable bigquery_prices : string -> string -> attempt.

Local Abbreviation query_sopr :=
  (query_sopr seed uniform import_world Timestamp bigquery_sopr).
Local Abbreviation query_prices :=
  (query_prices import_world Timestamp bigquery_prices).
Local Abbreviation SAMPLE_SOPR_DATA :=
  (SAMPLE_SOPR_DATA seed uniform import_world).
Local Abbreviation SAMPLE_PRICES := (SAMPLE_PRICES import_world).

(** *** The date filter *)

Lemma select_between (rs : list (Z * Q)) (ds de : Z) :
  map fst (filter (fun p : (Z * Q) * bool => snd p)
    (combine rs (mask_and (map (fun d => (ds <=? d)%Z) (map fst rs))
                          (map (fun d => (d <=? de)%Z) (map fst rs)))))
  = filter (within ds de) rs.
Proof.
  induction rs as [|r rs IH]; [reflexivity|].
  unfold mask_and in *. simpl.
  change (filter (within ds de) (r :: rs))
    with (if within ds de r then r :: filter (within ds de) rs
          else filter (within ds de) rs).
  unfold within at 1.
  destruct ((ds <=? fst r)%Z && (fst r <=? de)%Z); simpl; now rewrite IH.
Qed.

Lemma between_valid (sample : DataFrame) (s e : string) (ds de : Z) :
  Timestamp s = Some ds -> Timestamp e = Some de ->
  between Timestamp sample s e
  = Return (mkDataFrame (columns sample) (filter (within ds de) (rows sample))).
Proof.
  intros Hs He. unfold between, ge_str, le_str. rewrite Hs, He.
  unfold boolean_index, dates. now rewrite select_between.
Qed.

(** The filter raises nothing but [TypeError]. *)
Lemma between_cases (sample : DataFrame) (s e : string) :
  between Timestamp sample s e = Raise TypeError
  \/ exists df, between Timestamp sample s e = Return df.
Proof.
  unfold between, ge_str, le_str.
  destruct (Timestamp s); [|now left].
  destruct (Timestamp e); [|now left].
  right. eexists. reflexivity.
Qed.

Lemma filter_within_in_range (ds de : Z) (rs : list (Z * Q)) :
  Forall (fun d => ds <= d <= de)%Z (map fst (filter (within ds de) rs)).
Proof.
  apply Forall_forall. intros d Hd.
  apply in_map_iff in Hd. destruct Hd as [r [<- Hr]].
  apply filter_In in Hr. destruct Hr as [_ Hr].
  unfold within in Hr. apply andb_true_iff in Hr. lia.
Qed.

Lemma filter_incl {A} (f : A -> bool) (l : list A) : incl (filter f l) l.
Proof. intros x Hx. apply filter_In in Hx. tauto. Qed.

Lemma filter_length_le {A} (f : A -> bool) (l : list A) :
  (List.length (filter f l) <= List.length l)%nat.
Proof.
  induction l as [|a l IH]; simpl; [lia|]. destruct (f a); simpl; lia.
Qed.

Lemma filter_none {A} (f : A -> bool) (l : list A) :
  (forall x, In x l -> f x = false) -> filter f l = [].
Proof.
  induction l as [|a l IH]; intros H; simpl; [reflexivity|].
  rewrite (H a (or_introl eq_refl)). apply IH.
  intros x Hx. apply H. now right.
Qed.

(** *** The two functions, unfolded *)

Lemma query_sopr_sample (s e : string) :
  query_sopr s e true
  = ([UsingSampleSopr], between Timestamp SAMPLE_SOPR_DATA s e).
Proof. now simp query_sopr. Qed.

Lemma query_sopr_live (s e : string) :
  query_sopr s e false
  = match validate s e with
    | Raise ex => ([], Raise ex)
    | Return _ =>
        match try_sopr bigquery_sopr s e with
        | (log, Return df) => (log, Return df)
        | (log, Raise ex) =>
            (log ++ except_sopr ex ++ [UsingSampleSopr],
             between Timestamp SAMPLE_SOPR_DATA s e)
        end
    end.
Proof.
  simp query_sopr. destruct (validate s e) as [[]|ex]; simpl; [|reflexivity].
  destruct (try_sopr bigquery_sopr s e) as [log [df|ex]]; simpl;
    [reflexivity|].
  now simp query_sopr.
Qed.

Lemma query_prices_sample (s e : string) :
  query_prices s e true
  = ([UsingSamplePrices],
     match between Timestamp SAMPLE_PRICES s e with
     | Raise ex => Raise ex
     | Return result => Return (rename_price_usd result)
     end).
Proof. now simp query_prices. Qed.

Lemma query_prices_live (s e : string) :
  query_prices s e false
  = match validate s e with
    | Raise ex => ([], Raise ex)
    | Return _ =>
        match try_prices bigquery_prices s e with
        | (log, Return df) => (log, Return df)
        | (log, Raise ex) =>
            (log ++ except_prices ex ++ [UsingSamplePrices],
             match between Timestamp SAMPLE_PRICES s e with
             | Raise ex => Raise ex
             | Return result => Return (rename_price_usd result)
             end)
        end
    end.
Proof.
  simp query_prices. destruct (validate s e) as [[]|ex]; simpl; [|reflexivity].
  destruct (try_prices bigquery_prices s e) as [log [df|ex]]; simpl;
    [reflexivity|].
  now simp query_prices.
Qed.

Lemma validate_valid (s e : string) (ds de : Z) :
  Calendar.strptime s = Some ds -> Calendar.strptime e = Some de ->
  validate s e = Return tt.
Proof. intros Hs He. unfold validate. now rewrite Hs, He. Qed.

Lemma validate_invalid (s e : string) :
  Calendar.strptime s = None \/ Calendar.strptime e = None ->
  raises_ValueError (validate s e).
Proof.
  intros H. unfold validate, raises_ValueError.
  destruct (Calendar.strptime s); [|eexists; reflexivity].
  destruct H as [H|H]; [discriminate|]. rewrite H. eexists; reflexivity.
Qed.

(** With [use_sample=False] a date that does not parse is reported. *)
Lemma query_sopr_live_invalid (s e : string) :
  Calendar.strptime s = None \/ Calendar.strptime e = None ->
  raises_ValueError (snd (query_sopr s e false)).
Proof.
  intros H. rewrite query_sopr_live.
  destruct (@validate_invalid s e H) as [m Hm]. rewrite Hm. now exists m.
Qed.

(** *** Counting fallbacks *)

Lemma fallbacks_app (l1 l2 : list msg) :
  fallbacks (l1 ++ l2) = (fallbacks l1 + fallbacks l2)%nat.
Proof. unfold fallbacks. now rewrite filter_app, length_app. Qed.

Lemma fallbacks_except_sopr (ex : exn) : fallbacks (except_sopr ex) = 1%nat.
Proof.
  unfold except_sopr.
  destruct (is_GoogleCloudError ex); [reflexivity|].
  destruct (is_FileNotFoundError ex); reflexivity.
Qed.

Lemma fallbacks_except_prices (ex : exn) :
  fallbacks (except_prices ex) = 1%nat.
Proof.
  unfold except_prices. destruct (is_GoogleCloudError ex); reflexivity.
Qed.

Lemma try_sopr_cases (s e : string) :
  match try_sopr bigquery_sopr s e with
  | (log, Return df) =>
      fallbacks log = 0%nat /\ bigquery_sopr s e = Succeeds df
  | (log, Raise _) =>
      fallbacks log = 0%nat /\ attempt_raises (bigquery_sopr s e)
  end.
Proof.
  unfold try_sopr. destruct (bigquery_sopr s e); simpl; auto.
Qed.

Lemma try_prices_cases (s e : string) :
  match try_prices bigquery_prices s e with
  | (log, Return df) =>
      fallbacks log = 0%nat /\ bigquery_prices s e = Succeeds df
  | (log, Raise _) =>
      fallbacks log = 0%nat /\ attempt_raises (bigquery_prices s e)
  end.
Proof.
  unfold try_prices. destruct (bigquery_prices s e); simpl; auto.
Qed.

(** *** The window of the sample series *)

Lemma days_back_In (t : Z) (n : nat) (d : Z) :
  In d (SampleData.days_back t n)
  <-> (t - Z.of_nat n < d <= t)%Z.
Proof.
  unfold SampleData.days_back. rewrite in_map_iff. split.
  - intros [i [<- Hi]]. apply in_seq in Hi. lia.
  - intros H. exists (Z.to_nat (t - d)). split; [lia|].
    apply in_seq. lia.
Qed.

Lemma date_range_end_In (t : Z) (n : nat) (d : Z) :
  In d (SampleData.date_range_end t n)
  <-> (t - Z.of_nat n < d <= t)%Z.
Proof.
  unfold SampleData.date_range_end. rewrite in_map_iff. split.
  - intros [i [<- Hi]]. apply in_seq in Hi. lia.
  - intros H. exists (Z.to_nat (d - t + Z.of_nat (n - 1))). split; [lia|].
    apply in_seq. lia.
Qed.

Lemma days_back_NoDup (t : Z) (n : nat) : NoDup (SampleData.days_back t n).
Proof.
  unfold SampleData.days_back.
  apply Injective_map_NoDup; [|apply seq_NoDup].
  intros i j Hij. lia.
Qed.

Lemma date_range_end_NoDup (t : Z) (n : nat) :
  NoDup (SampleData.date_range_end t n).
Proof.
  unfold SampleData.date_range_end.
  apply Injective_map_NoDup; [|apply seq_NoDup].
  intros i j Hij. lia.
Qed.

Lemma SAMPLE_SOPR_DATA_dates :
  dates SAMPLE_SOPR_DATA
  = SampleData.days_back (SampleData.today import_world) 30.
Proof. apply generate_dates. Qed.

Lemma SAMPLE_PRICES_dates :
  dates SAMPLE_PRICES
  = SampleData.date_range_end (SampleData.today import_world) 30.
Proof. reflexivity. Qed.

Lemma len_dates (df : DataFrame) : len df = List.length (dates df).
Proof. unfold len, dates. now rewrite length_map. Qed.

(** Where pandas reads both dates, the fallback of the price query
    returns the sample prices of the range. *)
Lemma query_prices_fallback_when_read :
  forall (start_date end_date : string) (ds de : Z),
    valid_date Timestamp start_date ds ->
    valid_date Timestamp end_date de ->
    attempt_raises (bigquery_prices start_date end_date) ->
    exists df,
      snd (query_prices start_date end_date false) = Return df
      /\ snd (query_prices start_date end_date true) = Return df
      /\ rows df = filter (within ds de) (rows SAMPLE_PRICES).
Proof.
  intros s e ds de [Hs Hs'] [He He'] Hraise.
  rewrite query_prices_live, query_prices_sample.
  rewrite (@validate_valid s e ds de Hs He).
  rewrite (@between_valid _ s e ds de Hs' He').
  pose proof (try_prices_cases s e) as Hc.
  destruct (try_prices bigquery_prices s e) as [log [df|ex]].
  - destruct Hc as [_ Hc]. rewrite Hc in Hraise. destruct Hraise.
  - eexists. cbn [snd]. split; [reflexivity|]. split; reflexivity.
Qed.

(** With dates that pass the validation and an attempt that raises, the
    price query announces one fallback and ends as its sample branch
    ends, with a frame or with an exception. *)
Lemma query_prices_fallback_outcome (s e : string) :
  validate s e = Return tt ->
  attempt_raises (bigquery_prices s e) ->
  snd (query_prices s e false) = snd (query_prices s e true)
  /\ fallbacks (fst (query_prices s e false)) = 1%nat.
Proof.
  intros Hv Hraise. rewrite query_prices_live, query_prices_sample, Hv.
  pose proof (try_prices_cases s e) as Hc.
  destruct (try_prices bigquery_prices s e) as [log [df|ex]].
  - destruct Hc as [_ Hc]. rewrite Hc in Hraise. destruct Hraise.
  - destruct Hc as [Hlog _]. cbn [fst snd]. split; [reflexivity|].
    rewrite !fallbacks_app, fallbacks_except_prices, Hlog. reflexivity.
Qed.

(** A string pandas does not read makes the date filter raise. *)
Lemma between_unread_start (sample : DataFrame) (s e : string) :
  Timestamp s = None -> between Timestamp sample s e = Raise TypeError.
Proof. intros H. unfold between, ge_str. now rewrite H. Qed.

(** C1. On the range from "2024-01- 5" to "2024-01-31", whose start
    [strptime] accepts as 5 January 2024 and pandas does not read as a
    timestamp, [query_prices] with [use_sample=False] raises when the
    attempt at the remote query raises: both dates pass the validation,
    one fallback is announced, and the call made with [use_sample=True]
    raises the [TypeError] of the comparison instead of returning sample
    data. *)
Theorem C1_price_fallback_raises_on_unread_date :
  Timestamp "2024-01- 5" = None ->
  attempt_raises (bigquery_prices "2024-01- 5" "2024-01-31") ->
  Calendar.strptime "2024-01- 5" = Some 738890%Z
  /\ validate "2024-01- 5" "2024-01-31" = Return tt
  /\ fallbacks (fst (query_prices "2024-01- 5" "2024-01-31" false)) = 1%nat
  /\ snd (query_prices "2024-01- 5" "2024-01-31" false) = Raise TypeError
  /\ snd (query_prices "2024-01- 5" "2024-01-31" true) = Raise TypeError.
Proof.
  intros Hunread Hraise.
  assert (Hv : validate "2024-01- 5" "2024-01-31" = Return tt)
    by reflexivity.
  destruct (query_prices_fallback_outcome _ _ Hv Hraise) as [Hsame Hone].
  assert (Hsample : snd (query_prices "2024-01- 5" "2024-01-31" true)
                    = Raise TypeError).
  { rewrite query_prices_sample. cbn [snd].
    now rewrite (between_unread_start _ _ Hunread). }
  split; [reflexivity|]. split; [exact Hv|]. split; [exact Hone|].
  split; [now rewrite Hsame|exact Hsample].
Qed.

(** C2. On ["2024-02-30"], which is no calendar date, [query_sopr] with
    [use_sample=True] does not raise [ValueError]: it prints that it
    uses sample data and then either raises the [TypeError] of the
    comparison or returns a frame, as pandas reads the string. *)
Theorem C2_sample_branch_skips_validation :
  Calendar.strptime "2024-02-30" = None
  /\ exists r,
       query_sopr "2024-02-30" "2024-03-01" true = ([UsingSampleSopr], r)
       /\ (r = Raise TypeError \/ exists df, r = Return df)
       /\ ~ raises_ValueError r.
Proof.
  split; [reflexivity|].
  rewrite query_sopr_sample. eexists. split; [reflexivity|].
  pose proof (between_cases SAMPLE_SOPR_DATA "2024-02-30" "2024-03-01")
    as Hc.
  split; [exact Hc|].
  intros [m Hm]. destruct Hc as [Hc|[df Hc]]; congruence.
Qed.

(** C3. With valid dates, a remote query that succeeds with zero rows is
    returned as it is by [query_sopr] and by [query_prices], and no
    fallback is announced; and whenever either function announces a
    fallback, the attempt at the remote query had raised. *)
Theorem C3_empty_result_is_returned :
  forall (start_date end_date : string) (column_names : list string),
    let nothing := mkDataFrame column_names [] in
    validate start_date end_date = Return tt ->
    (bigquery_sopr start_date end_date = Succeeds nothing ->
     snd (query_sopr start_date end_date false) = Return nothing
     /\ fallbacks (fst (query_sopr start_date end_date false)) = 0%nat)
    /\ (bigquery_prices start_date end_date = Succeeds nothing ->
        snd (query_prices start_date end_date false) = Return nothing
        /\ fallbacks (fst (query_prices start_date end_date false)) = 0%nat)
    /\ (forall use_sample,
          fallbacks (fst (query_sopr start_date end_date use_sample))
            <> 0%nat ->
          attempt_raises (bigquery_sopr start_date end_date))
    /\ (forall use_sample,
          fallbacks (fst (query_prices start_date end_date use_sample))
            <> 0%nat ->
          attempt_raises (bigquery_prices start_date end_date)).
Proof.
  intros s e cols nothing Hv. repeat split.
  - rewrite query_sopr_live, Hv. unfold try_sopr. now rewrite H.
  - rewrite query_sopr_live, Hv. unfold try_sopr. now rewrite H.
  - rewrite query_prices_live, Hv. unfold try_prices. now rewrite H.
  - rewrite query_prices_live, Hv. unfold try_prices. now rewrite H.
  - intros [|]; [rewrite query_sopr_sample; intros H0; now elim H0|].
    rewrite query_sopr_live, Hv.
    pose proof (try_sopr_cases s e) as Hc.
    destruct (try_sopr bigquery_sopr s e) as [log [df|ex]]; simpl;
      destruct Hc as [Hlog Hc]; [congruence|auto].
  - intros [|]; [rewrite query_prices_sample; intros H0; now elim H0|].
    rewrite query_prices_live, Hv.
    pose proof (try_prices_cases s e) as Hc.
    destruct (try_prices bigquery_prices s e) as [log [df|ex]]; simpl;
      destruct Hc as [Hlog Hc]; [congruence|auto].
Qed.

(** C5. For valid dates, [query_sopr] with [use_sample=True] returns a
    frame whose every date lies between the start and the end date,
    ends included, and whose rows, hence dates, all come from the full
    sample series (with a start after the end, that is no row). *)
Theorem C5_sample_rows_in_range :
  forall (start_date end_date : string) (ds de : Z),
    valid_date Timestamp start_date ds ->
    valid_date Timestamp end_date de ->
    exists df,
      snd (query_sopr start_date end_date true) = Return df
      /\ Forall (fun d => ds <= d <= de)%Z (dates df)
      /\ incl (rows df) (rows SAMPLE_SOPR_DATA)
      /\ incl (dates df) (dates SAMPLE_SOPR_DATA).
Proof.
  intros s e ds de [_ Hs] [_ He].
  rewrite query_sopr_sample, (@between_valid _ s e ds de Hs He).
  eexists. split; [reflexivity|]. unfold dates; cbn [rows].
  split; [|split].
  - apply filter_within_in_range.
  - apply filter_incl.
  - apply incl_map, filter_incl.
Qed.

(** C9. Both functions are total (their recursion decreases from
    [use_sample=False] to [use_sample=True]) and a call announces at
    most one fallback; the call with [use_sample=True] announces none,
    and its outcome does not depend on what the remote side would do. *)
Theorem C9_at_most_one_fallback :
  forall (start_date end_date : string) (use_sample : bool),
    (fallbacks (fst (query_sopr start_date end_date use_sample)) <= 1)%nat
    /\ (fallbacks (fst (query_prices start_date end_date use_sample)) <= 1)%nat
    /\ fallbacks (fst (query_sopr start_date end_date true)) = 0%nat
    /\ fallbacks (fst (query_prices start_date end_date true)) = 0%nat
    /\ (forall other_sopr,
          Queries.query_sopr seed uniform import_world Timestamp other_sopr
            start_date end_date true
          = query_sopr start_date end_date true)
    /\ (forall other_prices,
          Queries.query_prices import_world Timestamp other_prices
            start_date end_date true
          = query_prices start_date end_date true).
Proof.
  intros s e u. split; [|split; [|split; [|split; [|split]]]].
  - destruct u; [rewrite query_sopr_sample; simpl; auto|].
    rewrite query_sopr_live. destruct (validate s e); simpl; [|auto].
    pose proof (try_sopr_cases s e) as Hc.
    destruct (try_sopr bigquery_sopr s e) as [log [df|ex]]; cbn [fst];
      destruct Hc as [Hlog _]; [lia|].
    rewrite !fallbacks_app, fallbacks_except_sopr, Hlog. cbn. lia.
  - destruct u; [rewrite query_prices_sample; simpl; auto|].
    rewrite query_prices_live. destruct (validate s e); simpl; [|auto].
    pose proof (try_prices_cases s e) as Hc.
    destruct (try_prices bigquery_prices s e) as [log [df|ex]]; cbn [fst];
      destruct Hc as [Hlog _]; [lia|].
    rewrite !fallbacks_app, fallbacks_except_prices, Hlog. cbn. lia.
  - now rewrite query_sopr_sample.
  - now rewrite query_prices_sample.
  - intros other. now simp query_sopr.
  - intros other. now simp query_prices.
Qed.

(** C10. The two sample series hold one row for each of the 30 days
    that end on the day the module was imported, and no other; so for
    valid dates [query_sopr] with [use_sample=True] returns at most 30
    rows, and none when the range ends before that window starts or
    starts after it ends. *)
Theorem C10_sample_window :
  let today := SampleData.today import_world in
  (len SAMPLE_SOPR_DATA = 30%nat
   /\ NoDup (dates SAMPLE_SOPR_DATA)
   /\ forall d, In d (dates SAMPLE_SOPR_DATA) <-> (today - 29 <= d <= today)%Z)
  /\ (len SAMPLE_PRICES = 30%nat
      /\ NoDup (dates SAMPLE_PRICES)
      /\ forall d, In d (dates SAMPLE_PRICES) <-> (today - 29 <= d <= today)%Z)
  /\ forall (start_date end_date : string) (ds de : Z),
       valid_date Timestamp start_date ds ->
       valid_date Timestamp end_date de ->
       exists df,
         snd (query_sopr start_date end_date true) = Return df
         /\ (len df <= 30)%nat
         /\ ((de < today - 29 \/ today < ds)%Z -> rows df = []).
Proof.
  intros today. subst today.
  assert (Hlen : len SAMPLE_SOPR_DATA = 30%nat).
  { rewrite len_dates, SAMPLE_SOPR_DATA_dates.
    apply days_back_length. }
  assert (Hin : forall d, In d (dates SAMPLE_SOPR_DATA)
                  <-> (SampleData.today import_world - 29 <= d
                       <= SampleData.today import_world)%Z).
  { intros d. rewrite SAMPLE_SOPR_DATA_dates, days_back_In. lia. }
  split; [|split].
  - split; [exact Hlen|]. split; [|exact Hin].
    rewrite SAMPLE_SOPR_DATA_dates. apply days_back_NoDup.
  - split; [reflexivity|]. split.
    + rewrite SAMPLE_PRICES_dates. apply date_range_end_NoDup.
    + intros d. rewrite SAMPLE_PRICES_dates, date_range_end_In. lia.
  - intros s e ds de [_ Hs] [_ He].
    rewrite query_sopr_sample, (@between_valid _ s e ds de Hs He).
    eexists. split; [reflexivity|]. split.
    + unfold len in *. cbn [rows]. rewrite <- Hlen. apply filter_length_le.
    + intros Hout. cbn [rows]. apply filter_none. intros r Hr.
      assert (Hd : In (fst r) (dates SAMPLE_SOPR_DATA))
        by (unfold dates; now apply in_map).
      apply Hin in Hd. unfold within.
      apply andb_false_iff. rewrite !Z.leb_gt. lia.
Qed.

End DataAccessFacts.

(* ===================================================================== *)
(** * Properties of the price ingestion job *)
(* ===================================================================== *)

Section JobFacts.
Import LoadPrices.

Variable GCP_PROJECT_ID : option string.
Variable UTXO_START_DATE : string.
Variable now : string.
Variable operator : string.
Variable history : string -> string -> result (list quote).
Variable load_job_error : list price_row -> option exn.

Local Abbreviation main :=
  (main GCP_PROJECT_ID UTXO_START_DATE now operator history load_job_error).
Local Abbreviation fetch_and_load :=
  (fetch_and_load UTXO_START_DATE now history load_job_error).

Lemma str_in_In (x : string) (l : list string) :
  str_in x l = true <-> In x l.
Proof.
  unfold str_in. rewrite existsb_exists. split.
  - intros [y [Hy Heq]]. apply String.eqb_eq in Heq. now subst.
  - intros H. exists x. split; [exact H|apply String.eqb_refl].
Qed.

Lemma rows_written_same (w : warehouse) : rows_written w w = 0%nat.
Proof. unfold rows_written. now rewrite Nat.sub_diag. Qed.

Lemma check_existing_data_table (w : warehouse) (t : list price_row) :
  table w = Some t -> check_existing_data w = Return (List.length t).
Proof. intros H. unfold check_existing_data, get_table. now rewrite H. Qed.

Lemma check_existing_data_returns (w : warehouse) :
  exists n, check_existing_data w = Return n.
Proof.
  unfold check_existing_data, get_table.
  destruct (table w); eexists; reflexivity.
Qed.

(** With nothing fetched, the job stops at line 146. *)
Lemma fetch_and_load_empty (log : list msg) (w : warehouse) :
  history UTXO_START_DATE now = Return [] ->
  fetch_and_load log w
  = ((log ++ [Fetching UTXO_START_DATE now; Fetched 0] ++ [NoDataFetched],
      Return NoData), w).
Proof.
  intros H. unfold LoadPrices.fetch_and_load, fetch_btc_prices.
  now rewrite H.
Qed.

(** C7. When the configuration is valid, the target table holds at
    least one row and the operator's answer, trimmed and lowercased, is
    neither "yes" nor "y", the job prints that the operation is
    cancelled and returns at once: the warehouse is the one it started
    from, table included, and no row was written. *)
Theorem C7_declined_overwrite_cancels :
  forall (w : warehouse) (existing : list price_row),
    validate_config GCP_PROJECT_ID = Return true ->
    table w = Some existing ->
    (0 < List.length existing)%nat ->
    ~ In (lower (strip operator)) ["yes"; "y"]%string ->
    main w
    = (([TableAlreadyContains (List.length existing); OperationCancelled],
        Return Cancelled), w)
    /\ table (snd (main w)) = Some existing
    /\ rows_written w (snd (main w)) = 0%nat.
Proof.
  intros w existing Hcfg Ht Hpos Hno.
  assert (Hmain : main w
    = (([TableAlreadyContains (List.length existing); OperationCancelled],
        Return Cancelled), w)).
  { unfold LoadPrices.main. rewrite Hcfg.
    rewrite (check_existing_data_table _ Ht).
    apply Nat.ltb_lt in Hpos. rewrite Hpos.
    destruct (str_in _ _) eqn:E; [|reflexivity].
    apply str_in_In in E. contradiction. }
  rewrite Hmain. cbn [snd]. repeat split; [exact Ht|apply rows_written_same].
Qed.

(** C8. When the fetch returns no row, the job leaves the warehouse as
    it found it, so the table is not overwritten, its rows survive and
    no row is written; and when the job gets as far as the fetch (valid
    configuration, and either no existing row or an operator who
    agreed) it stops with no data, without running the load. *)
Theorem C8_empty_fetch_writes_nothing :
  forall (w : warehouse),
    history UTXO_START_DATE now = Return [] ->
    snd (main w) = w
    /\ rows_written w (snd (main w)) = 0%nat
    /\ (validate_config GCP_PROJECT_ID = Return true ->
        check_existing_data w = Return 0%nat
        \/ In (lower (strip operator)) ["yes"; "y"]%string ->
        snd (fst (main w)) = Return NoData).
Proof.
  intros w Hfetch.
  assert (Hsame : snd (main w) = w).
  { unfold LoadPrices.main.
    destruct (validate_config GCP_PROJECT_ID); [|reflexivity].
    destruct (check_existing_data w) as [n|ex]; [|reflexivity].
    destruct (0 <? n)%nat; [destruct (negb _); [reflexivity|]|];
      now rewrite fetch_and_load_empty. }
  split; [exact Hsame|]. split; [rewrite Hsame; apply rows_written_same|].
  intros Hcfg Hreach. unfold LoadPrices.main. rewrite Hcfg.
  destruct Hreach as [Hzero|Hyes].
  - rewrite Hzero. cbn [Nat.ltb Nat.leb]. now rewrite fetch_and_load_empty.
  - destruct (check_existing_data w) as [n|ex] eqn:Hc.
    + apply str_in_In in Hyes. rewrite Hyes. cbn [negb].
      destruct (0 <? n)%nat; now rewrite fetch_and_load_empty.
    + destruct (check_existing_data_returns w) as [n Hn]. congruence.
Qed.

End JobFacts.

(* ===================================================================== *)
(** * The properties at concrete inputs *)
(* ===================================================================== *)

Lemma C1_price_fallback_witness :
  Demo.Timestamp_no_blank "2024-01- 5" = None
  /\ Queries.attempt_raises (Demo.bigquery_down "2024-01- 5" "2024-01-31")
  /\ Queries.validate "2024-01- 5" "2024-01-31" = Return tt
  /\ snd (Queries.query_prices Demo.import_world Demo.Timestamp_no_blank
            Demo.bigquery_down "2024-01- 5" "2024-01-31" false)
     = Raise TypeError.
Proof.
  assert (Hunread : Demo.Timestamp_no_blank "2024-01- 5" = None)
    by reflexivity.
  destruct (@C1_price_fallback_raises_on_unread_date _ Demo.import_world
              Demo.Timestamp_no_blank Demo.bigquery_down Hunread I)
    as [_ [Hv [_ [Hlive _]]]].
  split; [exact Hunread|]. split; [exact I|]. split; [exact Hv|exact Hlive].
Defined.

Lemma C3_empty_result_witness :
  let nothing := mkDataFrame ["date"; "sopr"]%string [] in
  Queries.validate "2024-01-01" "2024-01-31" = Return tt
  /\ Demo.bigquery_empty "2024-01-01" "2024-01-31" = Queries.Succeeds nothing
  /\ snd (Queries.query_sopr SampleData.lcg_seed SampleData.lcg_uniform
            Demo.import_world Demo.Timestamp Demo.bigquery_empty
            "2024-01-01" "2024-01-31" false) = Return nothing
  /\ snd (Queries.query_prices Demo.import_world Demo.Timestamp
            Demo.bigquery_empty "2024-01-01" "2024-01-31" false)
     = Return nothing.
Proof.
  intros nothing.
  assert (Hv : Queries.validate "2024-01-01" "2024-01-31" = Return tt)
    by reflexivity.
  destruct (@C3_empty_result_is_returned _ SampleData.lcg_seed
              SampleData.lcg_uniform Demo.import_world Demo.Timestamp
              Demo.bigquery_empty Demo.bigquery_empty
              "2024-01-01" "2024-01-31" ["date"; "sopr"]%string Hv)
    as [Hsopr [Hprices _]].
  split; [exact Hv|]. split; [reflexivity|].
  split; [exact (proj1 (Hsopr eq_refl))|exact (proj1 (Hprices eq_refl))].
Defined.

Lemma C5_sample_rows_witness :
  valid_date Demo.Timestamp "2023-12-25" 738879
  /\ valid_date Demo.Timestamp "2023-12-31" 738885
  /\ exists df,
       snd (Queries.query_sopr SampleData.lcg_seed SampleData.lcg_uniform
              Demo.import_world Demo.Timestamp Demo.bigquery_down
              "2023-12-25" "2023-12-31" true) = Return df
       /\ Forall (fun d => 738879 <= d <= 738885)%Z (dates df)
       /\ incl (rows df)
               (rows (Queries.SAMPLE_SOPR_DATA SampleData.lcg_seed
                        SampleData.lcg_uniform Demo.import_world))
       /\ incl (dates df)
               (dates (Queries.SAMPLE_SOPR_DATA SampleData.lcg_seed
                         SampleData.lcg_uniform Demo.import_world)).
Proof.
  assert (Hs : valid_date Demo.Timestamp "2023-12-25" 738879)
    by (split; reflexivity).
  assert (He : valid_date Demo.Timestamp "2023-12-31" 738885)
    by (split; reflexivity).
  split; [exact Hs|]. split; [exact He|].
  exact (@C5_sample_rows_in_range _ SampleData.lcg_seed SampleData.lcg_uniform
           Demo.import_world Demo.Timestamp Demo.bigquery_down
           "2023-12-25" "2023-12-31" _ _ Hs He).
Defined.

Lemma C10_sample_window_witness :
  valid_date Demo.Timestamp "2023-01-01" 738521
  /\ valid_date Demo.Timestamp "2023-01-31" 738551
  /\ exists df,
       snd (Queries.query_sopr SampleData.lcg_seed SampleData.lcg_uniform
              Demo.import_world Demo.Timestamp Demo.bigquery_down
              "2023-01-01" "2023-01-31" true) = Return df
       /\ (len df <= 30)%nat
       /\ rows df = [].
Proof.
  assert (Hs : valid_date Demo.Timestamp "2023-01-01" 738521)
    by (split; reflexivity).
  assert (He : valid_date Demo.Timestamp "2023-01-31" 738551)
    by (split; reflexivity).
  split; [exact Hs|]. split; [exact He|].
  destruct (@C10_sample_window _ SampleData.lcg_seed SampleData.lcg_uniform
              Demo.import_world Demo.Timestamp Demo.bigquery_down)
    as [_ [_ Hq]].
  destruct (Hq "2023-01-01"%string "2023-01-31"%string _ _ Hs He) as [df [Hdf [Hlen Hout]]].
  exists df. split; [exact Hdf|]. split; [exact Hlen|].
  apply Hout. left. reflexivity.
Defined.

Lemma C7_declined_overwrite_witness :
  LoadPrices.validate_config Demo.GCP_PROJECT_ID = Return true
  /\ LoadPrices.table Demo.warehouse_100 = Some Demo.hundred_rows
  /\ (0 < List.length Demo.hundred_rows)%nat
  /\ ~ In (LoadPrices.lower (LoadPrices.strip " No ")) ["yes"; "y"]%string
  /\ LoadPrices.main Demo.GCP_PROJECT_ID "2019-01-01" "2024-01-01" " No "
       Demo.history_one Demo.load_ok Demo.warehouse_100
     = (([LoadPrices.TableAlreadyContains 100; LoadPrices.OperationCancelled],
         Return LoadPrices.Cancelled), Demo.warehouse_100).
Proof.
  assert (Hno : ~ In (LoadPrices.lower (LoadPrices.strip " No "))
                     ["yes"; "y"]%string).
  { intros [H|[H|[]]]; discriminate H. }
  assert (Hpos : (0 < List.length Demo.hundred_rows)%nat)
    by (vm_compute; lia).
  split; [reflexivity|]. split; [reflexivity|]. split; [exact Hpos|].
  split; [exact Hno|].
  exact (proj1 (@C7_declined_overwrite_cancels Demo.GCP_PROJECT_ID
                  "2019-01-01" "2024-01-01" " No " Demo.history_one
                  Demo.load_ok Demo.warehouse_100 Demo.hundred_rows
                  eq_refl eq_refl Hpos Hno)).
Defined.

Lemma C8_empty_fetch_witness :
  Demo.history_none "2019-01-01" "2024-01-01" = Return []
  /\ LoadPrices.validate_config Demo.GCP_PROJECT_ID = Return true
  /\ In (LoadPrices.lower (LoadPrices.strip "YES")) ["yes"; "y"]%string
  /\ snd (LoadPrices.main Demo.GCP_PROJECT_ID "2019-01-01" "2024-01-01" "YES"
            Demo.history_none Demo.load_ok Demo.warehouse_100)
     = Demo.warehouse_100
  /\ snd (fst (LoadPrices.main Demo.GCP_PROJECT_ID "2019-01-01" "2024-01-01"
                 "YES" Demo.history_none Demo.load_ok Demo.warehouse_100))
     = Return LoadPrices.NoData.
Proof.
  assert (Hyes : In (LoadPrices.lower (LoadPrices.strip "YES"))
                    ["yes"; "y"]%string) by (left; reflexivity).
  destruct (@C8_empty_fetch_writes_nothing Demo.GCP_PROJECT_ID
              "2019-01-01" "2024-01-01" "YES" Demo.history_none
              Demo.load_ok Demo.warehouse_100 eq_refl)
    as [Hsame [_ Hexit]].
  split; [reflexivity|]. split; [reflexivity|]. split; [exact Hyes|].
  split; [exact Hsame|].
  exact (Hexit eq_refl (or_intror Hyes)).
Defined.

(* ===================================================================== *)
(** * Further properties of the data access layer *)
(* ===================================================================== *)

Section DataAccessMore.
Import Queries.

Variable rng_state : Type.
Variable seed : Z -> rng_state.
Variable uniform : Q -> Q -> rng_state -> Q * rng_state.
Variable import_world : SampleData.world rng_state.
Variable Timestamp : string -> option Z.
Variable bigquery_sopr : string -> string -> attempt.
Variable bigquery_prices : string -> string -> attempt.

Local Abbreviation query_sopr :=
  (query_sopr seed uniform import_world Timestamp bigquery_sopr).
Local Abbreviation query_prices :=
  (query_prices import_world Timestamp bigquery_prices).
Local Abbreviation SAMPLE_SOPR_DATA :=
  (SAMPLE_SOPR_DATA seed uniform import_world).
Local Abbreviation SAMPLE_PRICES := (SAMPLE_PRICES import_world).
Local Abbreviation today := (SampleData.today import_world).

Lemma SAMPLE_SOPR_DATA_columns :
  columns SAMPLE_SOPR_DATA = ["date"; "sopr"]%string.
Proof.
  unfold Queries.SAMPLE_SOPR_DATA, SampleData.SAMPLE_SOPR_DATA,
    SampleData.generate_sample_sopr_data.
  destruct (SampleData.sopr_walk _ _ _ _). reflexivity.
Qed.

Lemma dates_filter (f : Z -> bool) (rs : list (Z * Q)) :
  map fst (filter (fun r => f (fst r)) rs) = filter f (map fst rs).
Proof.
  induction rs as [|r rs IH]; [reflexivity|]. simpl.
  destruct (f (fst r)); simpl; now rewrite IH.
Qed.

Lemma StronglySorted_filter {A} (R : A -> A -> Prop) (f : A -> bool)
  (l : list A) :
  StronglySorted R l -> StronglySorted R (filter f l).
Proof.
  induction 1 as [|a l Hs IH Hall]; simpl; [constructor|].
  destruct (f a); [|exact IH]. constructor; [exact IH|].
  apply Forall_forall. intros x Hx. apply filter_In in Hx.
  rewrite Forall_forall in Hall. now apply Hall.
Qed.

Lemma days_back_descending (t : Z) (n : nat) :
  StronglySorted Z.gt (SampleData.days_back t n).
Proof.
  unfold SampleData.days_back. generalize 0%nat as a.
  induction n as [|n IH]; intros a; simpl; constructor; [apply IH|].
  apply Forall_forall. intros d Hd. apply in_map_iff in Hd.
  destruct Hd as [i [<- Hi]]. apply in_seq in Hi. lia.
Qed.

Lemma date_range_end_ascending (t : Z) (n : nat) :
  StronglySorted Z.lt (SampleData.date_range_end t n).
Proof.
  unfold SampleData.date_range_end. generalize (n - 1)%nat as k.
  intros k. generalize 0%nat as a.
  induction n as [|n IH]; intros a; simpl; constructor; [apply IH|].
  apply Forall_forall. intros d Hd. apply in_map_iff in Hd.
  destruct Hd as [i [<- Hi]]. apply in_seq in Hi. lia.
Qed.

Lemma combine_map_map {A B C} (f : A -> B) (g : A -> C) (l : list A) :
  combine (map f l) (map g l) = map (fun i => (f i, g i)) l.
Proof. induction l as [|a l IH]; simpl; [reflexivity|now rewrite IH]. Qed.

Lemma SAMPLE_PRICES_rows :
  rows SAMPLE_PRICES
  = map (fun i => ((today - 29 + Z.of_nat i)%Z,
                   inject_Z (42000 + Z.of_nat i * 100)))
        (seq 0 30).
Proof.
  unfold Queries.SAMPLE_PRICES, SampleData.SAMPLE_PRICES,
    SampleData.date_range_end.
  cbn [rows]. now rewrite combine_map_map.
Qed.

(** The dates of the rows a range selects. *)
Lemma dates_within (ds de : Z) (rs : list (Z * Q)) :
  map fst (filter (within ds de) rs)
  = filter (fun d => (ds <=? d) && (d <=? de))%Z (map fst rs).
Proof. apply (dates_filter (fun d => (ds <=? d) && (d <=? de))%Z). Qed.

(** X1. When both dates pass the validation and the attempt at the
    remote SOPR query raises (the SQL file is missing, BigQuery fails, or
    anything else), [query_sopr] with [use_sample=False] announces exactly
    one fallback and ends as the call with [use_sample=True] ends: with
    the sample SOPR series filtered to the range, columns date and sopr,
    when pandas reads both strings, and with the [TypeError] of the
    comparison when pandas cannot read one of them. *)
Theorem X1_sopr_fallback_outcome :
  forall (start_date end_date : string),
    validate start_date end_date = Return tt ->
    attempt_raises (bigquery_sopr start_date end_date) ->
    fallbacks (fst (query_sopr start_date end_date false)) = 1%nat
    /\ snd (query_sopr start_date end_date false)
       = snd (query_sopr start_date end_date true)
    /\ snd (query_sopr start_date end_date false)
       = match Timestamp start_date, Timestamp end_date with
         | Some ds, Some de =>
             Return (mkDataFrame ["date"; "sopr"]%string
                       (filter (within ds de) (rows SAMPLE_SOPR_DATA)))
         | _, _ => Raise TypeError
         end.
Proof.
  intros s e Hv Hraise.
  rewrite query_sopr_live, query_sopr_sample, Hv.
  pose proof (try_sopr_cases bigquery_sopr s e) as Hc.
  destruct (try_sopr bigquery_sopr s e) as [log [df|ex]].
  { destruct Hc as [_ Hc]. rewrite Hc in Hraise. destruct Hraise. }
  destruct Hc as [Hlog _]. cbn [fst snd]. split; [|split; [reflexivity|]].
  - rewrite !fallbacks_app, fallbacks_except_sopr, Hlog. reflexivity.
  - destruct (Timestamp s) as [ds|] eqn:Hs.
    + destruct (Timestamp e) as [de|] eqn:He.
      * rewrite (@between_valid Timestamp _ s e ds de Hs He).
        now rewrite SAMPLE_SOPR_DATA_columns.
      * unfold between, ge_str, le_str. now rewrite Hs, He.
    + unfold between, ge_str. now rewrite Hs.
Qed.

(** X2. With [use_sample=False], a start or end date that does not parse
    makes both functions raise [ValueError] at once: nothing is printed,
    the remote side is not tried and no sample data is returned. *)
Theorem X2_invalid_dates_stop_live_queries :
  forall (start_date end_date : string),
    Calendar.strptime start_date = None
    \/ Calendar.strptime end_date = None ->
    query_sopr start_date end_date false
    = ([], Raise (ValueError "Invalid date format. Use YYYY-MM-DD"))
    /\ query_prices start_date end_date false
       = ([], Raise (ValueError "Invalid date format. Use YYYY-MM-DD")).
Proof.
  intros s e H.
  assert (Hv : validate s e
               = Raise (ValueError "Invalid date format. Use YYYY-MM-DD")).
  { unfold validate. destruct (Calendar.strptime s); [|reflexivity].
    destruct H as [H|H]; [discriminate|]. now rewrite H. }
  rewrite query_sopr_live, query_prices_live, Hv. split; reflexivity.
Qed.

(** X3. No error of the remote side reaches the caller: whatever the
    arguments and whatever the remote attempt does, an exception that
    leaves [query_sopr] or [query_prices] is the [ValueError] of the date
    validation or the [TypeError] of the comparison with a string pandas
    cannot read. *)
Theorem X3_remote_errors_never_escape :
  forall (start_date end_date : string) (use_sample : bool) (e : exn),
    snd (query_sopr start_date end_date use_sample) = Raise e
    \/ snd (query_prices start_date end_date use_sample) = Raise e ->
    e = ValueError "Invalid date format. Use YYYY-MM-DD" \/ e = TypeError.
Proof.
  intros s e u ex H.
  assert (Hv : forall ex', validate s e = Raise ex' ->
                 ex' = ValueError "Invalid date format. Use YYYY-MM-DD").
  { unfold validate. intros ex'.
    destruct (Calendar.strptime s); [|congruence].
    destruct (Calendar.strptime e); congruence. }
  assert (Hb : forall sample ex',
             between Timestamp sample s e = Raise ex' -> ex' = TypeError).
  { intros sample ex' Hr.
    destruct (between_cases Timestamp sample s e) as [Hc|[df Hc]];
      congruence. }
  destruct H as [H|H]; destruct u.
  - rewrite query_sopr_sample in H. right. eapply Hb. exact H.
  - rewrite query_sopr_live in H.
    destruct (validate s e) as [[]|ex'] eqn:E.
    + destruct (try_sopr bigquery_sopr s e) as [log [df|ex']];
        cbn [snd] in H; [discriminate|]. right. eapply Hb. exact H.
    + cbn [snd] in H. left. injection H as <-. now apply Hv.
  - rewrite query_prices_sample in H. cbn [snd] in H. right.
    destruct (between Timestamp SAMPLE_PRICES s e) eqn:E; [discriminate|].
    injection H as <-. eapply Hb. exact E.
  - rewrite query_prices_live in H.
    destruct (validate s e) as [[]|ex'] eqn:E.
    + destruct (try_prices bigquery_prices s e) as [log [df|ex']];
        cbn [snd] in H; [discriminate|]. right.
      destruct (between Timestamp SAMPLE_PRICES s e) eqn:E';
        [discriminate|]. injection H as <-. eapply Hb. exact E'.
    + cbn [snd] in H. left. injection H as <-. now apply Hv.
Qed.

(** X4. For valid dates, [query_sopr] with [use_sample=True] returns
    exactly one row for each day that lies both in the requested range
    and in the 30 days ending on the import day, newest day first. *)
Theorem X4_sample_sopr_rows_exact :
  forall (start_date end_date : string) (ds de : Z),
    valid_date Timestamp start_date ds ->
    valid_date Timestamp end_date de ->
    exists df,
      snd (query_sopr start_date end_date true) = Return df
      /\ (forall d, In d (dates df)
                    <-> (ds <= d <= de /\ today - 29 <= d <= today)%Z)
      /\ NoDup (dates df)
      /\ StronglySorted Z.gt (dates df).
Proof.
  intros s e ds de [_ Hs] [_ He].
  rewrite query_sopr_sample, (@between_valid Timestamp _ s e ds de Hs He).
  eexists. split; [reflexivity|].
  unfold dates at 1 2 3. cbn [rows]. rewrite dates_within.
  change (map fst (rows SAMPLE_SOPR_DATA)) with (dates SAMPLE_SOPR_DATA).
  rewrite SAMPLE_SOPR_DATA_dates. split; [|split].
  - intros d. rewrite filter_In, days_back_In, andb_true_iff, !Z.leb_le. lia.
  - apply NoDup_filter, days_back_NoDup.
  - apply StronglySorted_filter, days_back_descending.
Qed.

(** X5. For valid dates, the sample price frame [query_prices] returns
    has the columns date and price, lists its days oldest first (the
    opposite order of the SOPR frame and of the live query, which is
    ordered by date descending), and prices each day at 42000 plus 100
    per day since the first day of the 30-day window. *)
Theorem X5_sample_prices_shape :
  forall (start_date end_date : string) (ds de : Z),
    valid_date Timestamp start_date ds ->
    valid_date Timestamp end_date de ->
    exists df,
      snd (query_prices start_date end_date true) = Return df
      /\ columns df = ["date"; "price"]%string
      /\ StronglySorted Z.lt (dates df)
      /\ (forall d, In d (dates df)
                    <-> (ds <= d <= de /\ today - 29 <= d <= today)%Z)
      /\ (forall d price, In (d, price) (rows df) ->
            price = inject_Z (42000 + (d - (today - 29)) * 100)).
Proof.
  intros s e ds de [_ Hs] [_ He].
  rewrite query_prices_sample, (@between_valid Timestamp _ s e ds de Hs He).
  eexists. cbn [snd]. split; [reflexivity|].
  split; [reflexivity|].
  unfold dates, rename_price_usd. cbn [rows]. rewrite dates_within.
  change (map fst (rows SAMPLE_PRICES)) with (dates SAMPLE_PRICES).
  rewrite SAMPLE_PRICES_dates. split; [|split].
  - apply StronglySorted_filter, date_range_end_ascending.
  - intros d.
    rewrite filter_In, date_range_end_In, andb_true_iff, !Z.leb_le. lia.
  - intros d price Hin. apply filter_In in Hin. destruct Hin as [Hin _].
    rewrite SAMPLE_PRICES_rows in Hin. apply in_map_iff in Hin.
    destruct Hin as [i [Heq _]].
    pose proof (f_equal fst Heq) as Hd. pose proof (f_equal snd Heq) as Hp.
    cbn [fst snd] in Hd, Hp. rewrite <- Hp, <- Hd. f_equal. lia.
Qed.

End DataAccessMore.

(* ===================================================================== *)
(** * Further properties of the sample data *)
(* ===================================================================== *)

Section SampleDataMore.
Import SampleData.
Local Open Scope Q_scope.

Variable rng_state : Type.
Variable seed : Z -> rng_state.
Variable uniform : Q -> Q -> rng_state -> Q * rng_state.

Lemma sopr_walk_prefix (m k : nat) :
  forall current r,
    fst (sopr_walk uniform m current r)
    = firstn m (fst (sopr_walk uniform (m + k) current r)).
Proof.
  induction m as [|m IH]; intros current r; [reflexivity|].
  cbn [Nat.add sopr_walk].
  destruct (uniform _ _ r) as [change r1].
  specialize (IH (py_max (85 # 100) (py_min (115 # 100) (current + change))) r1).
  destruct (sopr_walk uniform m _ r1) as [rest r2].
  destruct (sopr_walk uniform (m + k) _ r1) as [rest' r2'].
  cbn [fst firstn] in *. now rewrite IH.
Qed.

Lemma days_back_prefix (t : Z) (m k : nat) :
  days_back t m = firstn m (days_back t (m + k)).
Proof.
  unfold days_back. rewrite seq_app, map_app.
  rewrite firstn_app, length_map, length_seq, Nat.sub_diag.
  cbn [firstn]. rewrite app_nil_r.
  rewrite firstn_all2; [reflexivity|]. now rewrite length_map, length_seq.
Qed.

(** X6. Asking for fewer days gives the start of the longer series: the
    frame of [m] days is the first [m] rows of the frame of [n] days, for
    every [m] up to [n], on the same day. *)
Theorem X6_shorter_series_is_prefix :
  forall (m n : nat) (w : world rng_state),
    (m <= n)%nat ->
    rows (fst (generate_sample_sopr_data seed uniform m w))
    = firstn m (rows (fst (generate_sample_sopr_data seed uniform n w))).
Proof.
  intros m n w Hmn. rewrite !generate_rows.
  replace n with (m + (n - m))%nat by lia.
  rewrite combine_firstn.
  now rewrite <- days_back_prefix, <- sopr_walk_prefix.
Qed.

(** Rounding moves a value by at most half a unit. *)
Lemma round_half_even_error (x : Q) :
  - (1 # 2) <= inject_Z (round_half_even x) - x <= 1 # 2.
Proof.
  unfold round_half_even.
  pose proof (Qfloor_le x) as Hlo. pose proof (Qlt_floor x) as Hhi.
  rewrite inject_Z_plus in Hhi. change (inject_Z 1) with 1 in Hhi.
  destruct (Qltb (x - inject_Z (Qfloor x)) (1 # 2)) eqn:E1.
  { apply Qltb_true in E1. lra. }
  apply Qltb_false in E1.
  assert (Hup : - (1 # 2) <= inject_Z (Qfloor x + 1) - x <= 1 # 2).
  { rewrite inject_Z_plus. change (inject_Z 1) with 1. lra. }
  destruct (Qltb (1 # 2) (x - inject_Z (Qfloor x))) eqn:E2; [exact Hup|].
  apply Qltb_false in E2.
  destruct (Z.even (Qfloor x)); [lra|exact Hup].
Qed.

Lemma round4_error (x : Q) :
  - (1 # 20000) <= round4 x - x <= 1 # 20000.
Proof.
  unfold round4.
  pose proof (round_half_even_error (x * inject_Z 10000)) as H.
  rewrite (Qmake_Qdiv (round_half_even (x * inject_Z 10000)) 10000).
  change (inject_Z (Z.pos 10000)) with (10000 # 1) in *.
  change (inject_Z 10000) with (10000 # 1) in *.
  set (n := inject_Z (round_half_even (x * (10000 # 1)))) in *.
  assert (Hn : n / (10000 # 1) == n * (1 # 10000)) by (unfold Qdiv; reflexivity).
  rewrite Hn. lra.
Qed.

(** The clamp of line 24 moves a value of the band by no more than the
    change that was added to it. *)
Lemma clamp_step (current change : Q) :
  in_band current -> - (3 # 100) <= change <= 3 # 100 ->
  - (3 # 100)
  <= py_max (85 # 100) (py_min (115 # 100) (current + change)) - current
  <= 3 # 100.
Proof.
  unfold in_band, py_max, py_min. intros Hc Hd.
  destruct (Qltb (current + change) (115 # 100)) eqn:Hmin;
    destruct (Qltb (85 # 100) _) eqn:Hmax;
    try apply Qltb_true in Hmin; try apply Qltb_false in Hmin;
    try apply Qltb_true in Hmax; try apply Qltb_false in Hmax;
    lra.
Qed.

Lemma sopr_walk_steps (Hdraw : draws_in_range uniform) (days : nat) :
  forall current prev r,
    in_band current ->
    - (1 # 20000) <= prev - current <= 1 # 20000 ->
    steps_within (301 # 10000) prev (fst (sopr_walk uniform days current r)).
Proof.
  induction days as [|days IH]; intros current prev r Hband Hprev;
    [exact I|].
  cbn [sopr_walk].
  pose proof (Hdraw (- (3 # 100)) (3 # 100) r) as Hd.
  destruct (uniform _ _ r) as [change r1]. cbn [fst] in Hd.
  assert (Hchange : - (3 # 100) <= change <= 3 # 100)
    by (apply Hd; lra).
  set (current' := py_max (85 # 100) (py_min (115 # 100) (current + change))).
  pose proof (clamp_step Hband Hchange) as Hstep. fold current' in Hstep.
  pose proof (round4_error current') as Hr.
  specialize (IH current' (round4 current') r1 (clamp_in_band _)).
  destruct (sopr_walk uniform days current' r1) as [rest r2].
  cbn [fst steps_within] in *. split; [lra|].
  apply IH. lra.
Qed.

(** X7. When every draw of [random.uniform(-0.03, 0.03)] lies between its
    bounds, the walk never jumps: each sopr value of the series is within
    0.0301 of the value of the row before it, and the first one within
    0.0301 of the starting value 1.0. *)
Theorem X7_sopr_walk_steps_are_small :
  forall (day_count : nat) (w : world rng_state),
    draws_in_range uniform ->
    steps_within (301 # 10000) 1
      (values (fst (generate_sample_sopr_data seed uniform day_count w))).
Proof.
  intros day_count w Hdraw. rewrite generate_values.
  apply sopr_walk_steps; [exact Hdraw| |lra].
  unfold in_band. lra.
Qed.

End SampleDataMore.

Lemma lcg_uniform_in_range : draws_in_range SampleData.lcg_uniform.
Proof.
  intros a b s Hab. unfold SampleData.lcg_uniform. cbn [fst].
  rewrite Qred_correct.
  set (s' := ((s * 1103515245 + 12345) mod 2147483648)%Z).
  assert (Hs : (0 <= s' < 2147483648)%Z)
    by (apply Z.mod_pos_bound; lia).
  assert (H0 : (0 <= s' # 2147483648)%Q)
    by (unfold Qle; cbn; lia).
  assert (H1 : (s' # 2147483648 <= 1)%Q)
    by (unfold Qle; cbn; lia).
  split; nra.
Qed.

Lemma X7_sopr_walk_steps_witness :
  draws_in_range SampleData.lcg_uniform
  /\ steps_within (301 # 10000) 1
       (values (fst (SampleData.generate_sample_sopr_data SampleData.lcg_seed
                       SampleData.lcg_uniform 30 Demo.import_world))).
Proof.
  split; [exact lcg_uniform_in_range|].
  exact (@X7_sopr_walk_steps_are_small Z SampleData.lcg_seed
           SampleData.lcg_uniform 30 Demo.import_world lcg_uniform_in_range).
Defined.

Lemma X6_shorter_series_witness :
  (7 <= 30)%nat
  /\ rows (fst (SampleData.generate_sample_sopr_data SampleData.lcg_seed
                  SampleData.lcg_uniform 7 Demo.import_world))
     = firstn 7 (rows (fst (SampleData.generate_sample_sopr_data
                              SampleData.lcg_seed SampleData.lcg_uniform 30
                              Demo.import_world))).
Proof.
  assert (H : (7 <= 30)%nat) by lia.
  split; [exact H|].
  exact (@X6_shorter_series_is_prefix Z SampleData.lcg_seed
           SampleData.lcg_uniform 7 30 Demo.import_world H).
Defined.

(* ===================================================================== *)
(** * Further properties of the price ingestion job *)
(* ===================================================================== *)

Section JobMore.
Import LoadPrices.

Variable GCP_PROJECT_ID : option string.
Variable UTXO_START_DATE : string.
Variable now : string.
Variable history : string -> string -> result (list quote).
Variable load_job_error : list price_row -> option exn.

Local Abbreviation main :=
  (main GCP_PROJECT_ID UTXO_START_DATE now).
Local Abbreviation fetch_and_load :=
  (fetch_and_load UTXO_START_DATE now history load_job_error).

(** The job gets as far as the fetch: the configuration is valid and
    either there is no row to overwrite or the operator agreed. *)
Lemma main_reaches_fetch (operator : string) (w : warehouse) :
  validate_config GCP_PROJECT_ID = Return true ->
  check_existing_data w = Return 0%nat
  \/ In (lower (strip operator)) ["yes"; "y"]%string ->
  exists log,
    main operator history load_job_error w = fetch_and_load log w.
Proof.
  intros Hcfg Hreach. unfold LoadPrices.main. rewrite Hcfg.
  destruct Hreach as [Hzero|Hyes].
  - rewrite Hzero. cbn [Nat.ltb Nat.leb]. now exists [].
  - destruct (check_existing_data_returns w) as [n Hn]. rewrite Hn.
    apply str_in_In in Hyes. rewrite Hyes. cbn [negb].
    destruct (0 <? n)%nat; eexists; reflexivity.
Qed.

Lemma rows_written_one_job (w : warehouse) (df : list price_row) :
  rows_written w (mkWarehouse (Some df) (df :: load_jobs w))
  = List.length df.
Proof.
  unfold rows_written. cbn [load_jobs List.length].
  replace (S (List.length (load_jobs w)) - List.length (load_jobs w))%nat
    with 1%nat by lia.
  cbn [firstn List.concat]. now rewrite app_nil_r.
Qed.

(** X8. When the job gets as far as the fetch, Yahoo Finance returns at
    least one bar and the load job completes, the job ends normally and
    the table holds exactly the fetched bars, in order, each with its
    date cut to the day: whatever the table held before is gone, and the
    row count the job reports is the number of bars fetched. *)
Theorem X8_successful_load_overwrites :
  forall (operator : string) (w : warehouse) (bars : list quote),
    validate_config GCP_PROJECT_ID = Return true ->
    check_existing_data w = Return 0%nat
    \/ In (lower (strip operator)) ["yes"; "y"]%string ->
    history UTXO_START_DATE now = Return bars ->
    bars <> [] ->
    load_job_error (map to_price_row bars) = None ->
    let run := main operator history load_job_error w in
    snd (fst run) = Return Loaded
    /\ table (snd run) = Some (map to_price_row bars)
    /\ rows_written w (snd run) = List.length bars
    /\ In (Complete (List.length bars)) (fst (fst run)).
Proof.
  intros operator w bars Hcfg Hreach Hfetch Hne Hload run. subst run.
  destruct (main_reaches_fetch operator w Hcfg Hreach) as [log ->].
  assert (Hlen : List.length (map to_price_row bars) = List.length bars)
    by apply length_map.
  unfold LoadPrices.fetch_and_load, fetch_btc_prices, upload_to_bigquery.
  rewrite Hfetch. revert Hload Hlen.
  destruct (map to_price_row bars) as [|r rs] eqn:Hrows.
  { destruct bars; [contradiction|discriminate]. }
  intros Hload Hlen. rewrite Hload.
  unfold check_existing_data, get_table. cbn [table is_NotFound fst snd].
  rewrite Hlen. split; [reflexivity|]. split; [reflexivity|]. split.
  - rewrite rows_written_one_job. exact Hlen.
  - rewrite !in_app_iff. right. right. right. now left.
Qed.

(** X9. An exception of the fetch ends the job: the warehouse is left as
    it was on every path, and when the job gets as far as the fetch the
    exception is the one the caller sees. *)
Theorem X9_fetch_failure_is_fatal :
  forall (operator : string) (w : warehouse) (e : exn),
    history UTXO_START_DATE now = Raise e ->
    let run := main operator history load_job_error w in
    snd run = w
    /\ (validate_config GCP_PROJECT_ID = Return true ->
        check_existing_data w = Return 0%nat
        \/ In (lower (strip operator)) ["yes"; "y"]%string ->
        snd (fst run) = Raise e).
Proof.
  intros operator w e Hfetch run. subst run.
  assert (Hfl : forall log, fetch_and_load log w
            = ((log ++ [Fetching UTXO_START_DATE now], Raise e), w)).
  { intros log. unfold LoadPrices.fetch_and_load, fetch_btc_prices.
    now rewrite Hfetch. }
  split.
  - unfold LoadPrices.main.
    destruct (validate_config GCP_PROJECT_ID); [|reflexivity].
    destruct (check_existing_data w) as [n|ex]; [|reflexivity].
    destruct (0 <? n)%nat; [destruct (negb _); [reflexivity|]|];
      now rewrite Hfl.
  - intros Hcfg Hreach.
    destruct (main_reaches_fetch operator w Hcfg Hreach) as [log ->].
    now rewrite Hfl.
Qed.

(** X10. When the table does not exist or holds no row, the operator is
    not asked: the run is the same whatever would have been typed. *)
Theorem X10_no_prompt_without_rows :
  forall (w : warehouse) (answer other_answer : string),
    table w = None \/ table w = Some [] ->
    main answer history load_job_error w
    = main other_answer history load_job_error w.
Proof.
  intros w a b Hw. unfold LoadPrices.main.
  destruct (validate_config GCP_PROJECT_ID); [|reflexivity].
  assert (Hc : check_existing_data w = Return 0%nat).
  { unfold check_existing_data, get_table.
    destruct Hw as [-> | ->]; reflexivity. }
  rewrite Hc. reflexivity.
Qed.

Lemma lstrip_blank (s : string) : blank_answer s -> lstrip s = EmptyString.
Proof.
  unfold blank_answer. induction s as [|c s IH]; intros H; [reflexivity|].
  cbn [list_ascii_of_string] in H. inversion H as [|? ? Hc Hs]; subst.
  cbn [lstrip]. rewrite Hc. now apply IH.
Qed.

(** X11. An empty answer (Enter alone) or one made of whitespace only
    counts as a refusal: with a valid configuration and at least one row
    in the table, the job is cancelled and the warehouse is left as it
    was. *)
Theorem X11_blank_answer_cancels :
  forall (operator : string) (w : warehouse) (existing : list price_row),
    validate_config GCP_PROJECT_ID = Return true ->
    table w = Some existing ->
    existing <> [] ->
    blank_answer operator ->
    main operator history load_job_error w
    = (([TableAlreadyContains (List.length existing); OperationCancelled],
        Return Cancelled), w).
Proof.
  intros operator w existing Hcfg Ht Hne Hblank. unfold LoadPrices.main.
  rewrite Hcfg, (check_existing_data_table _ Ht).
  destruct existing as [|r rs]; [contradiction|]. cbn [List.length Nat.ltb Nat.leb].
  unfold strip. rewrite (lstrip_blank Hblank). reflexivity.
Qed.

(** X12. The job never leaves an empty table behind: after any run the
    warehouse is either exactly as it was, or its table holds the
    non-empty frame of the one load job that ran (a load job that fails
    is taken to change nothing). *)
Theorem X12_job_never_empties_table :
  forall (operator : string) (w : warehouse),
    let after := snd (main operator history load_job_error w) in
    after = w
    \/ exists df,
         df <> []
         /\ table after = Some df
         /\ load_jobs after = df :: load_jobs w.
Proof.
  intros operator w after. subst after.
  assert (Hfl : forall log,
            snd (fetch_and_load log w) = w
            \/ exists df, df <> []
                 /\ table (snd (fetch_and_load log w)) = Some df
                 /\ load_jobs (snd (fetch_and_load log w))
                    = df :: load_jobs w).
  { intros log. unfold LoadPrices.fetch_and_load, fetch_btc_prices.
    destruct (history UTXO_START_DATE now) as [bars|ex]; [|now left].
    destruct (map to_price_row bars) as [|r rs] eqn:Hrows; [now left|].
    unfold upload_to_bigquery.
    destruct (load_job_error (r :: rs)); [now left|].
    right. exists (r :: rs).
    unfold check_existing_data, get_table. cbn [table is_NotFound snd].
    repeat split. discriminate. }
  unfold LoadPrices.main.
  destruct (validate_config GCP_PROJECT_ID); [|now left].
  destruct (check_existing_data w) as [n|ex]; [|now left].
  destruct (0 <? n)%nat; [destruct (negb _); [now left|]|]; apply Hfl.
Qed.

(** X18. When [GCP_PROJECT_ID] is unset or the empty string, the job
    stops at the configuration check with a [ValueError]: nothing is
    printed, the operator is not asked, nothing is fetched and the
    warehouse is left as it was. *)
Theorem X18_unset_project_stops_job :
  forall (operator : string) (w : warehouse),
    GCP_PROJECT_ID = None \/ GCP_PROJECT_ID = Some EmptyString ->
    main operator history load_job_error w
    = (([], Raise (ValueError "GCP_PROJECT_ID environment variable not set")),
       w).
Proof.
  intros operator w H. unfold LoadPrices.main, validate_config.
  destruct H as [-> | ->]; reflexivity.
Qed.

End JobMore.

(* ===================================================================== *)
(** * Properties of the dashboard page *)
(* ===================================================================== *)

Section DateStrings.
Import Calendar.
Local Open Scope Z_scope.

Lemma digit_digit_char (k : Z) :
  0 <= k <= 9 -> digit (Dashboard.digit_char k) = Some k.
Proof.
  intros H.
  assert (Hk : k = 0 \/ k = 1 \/ k = 2 \/ k = 3 \/ k = 4 \/ k = 5 \/ k = 6
               \/ k = 7 \/ k = 8 \/ k = 9) by lia.
  repeat (destruct Hk as [-> | Hk]; [reflexivity|]). now subst.
Qed.

Lemma dash_cons (r : list ascii) : dash ("-"%char :: r) = Some r.
Proof. reflexivity. Qed.

(** The month and the day, two digits each, are read back as written. *)
Lemma regex_month_day (A : Type) (y : A) (m d : Z) :
  1 <= m <= 12 -> 1 <= d <= 31 ->
  first_match (fun m' r3 =>
      match dash r3 with
      | None => None
      | Some r4 => first_match (fun d' r5 => Some (y, m', d', r5)) (group_d r4)
      end)
    (group_m [ Dashboard.digit_char (m / 10); Dashboard.digit_char (m mod 10);
               "-"%char;
               Dashboard.digit_char (d / 10); Dashboard.digit_char (d mod 10) ])
  = Some (y, m, d, []).
Proof.
  intros Hm Hd.
  assert (Cm :
    m = 1 \/ m = 2 \/ m = 3 \/ m = 4 \/ m = 5 \/ m = 6 \/ m = 7 \/ m = 8
    \/ m = 9 \/ m = 10 \/ m = 11 \/ m = 12) by lia.
  assert (Cd :
    d = 1 \/ d = 2 \/ d = 3 \/ d = 4 \/ d = 5 \/ d = 6 \/ d = 7 \/ d = 8
    \/ d = 9 \/ d = 10 \/ d = 11 \/ d = 12 \/ d = 13 \/ d = 14 \/ d = 15
    \/ d = 16 \/ d = 17 \/ d = 18 \/ d = 19 \/ d = 20 \/ d = 21 \/ d = 22
    \/ d = 23 \/ d = 24 \/ d = 25 \/ d = 26 \/ d = 27 \/ d = 28 \/ d = 29
    \/ d = 30 \/ d = 31) by lia.
  clear Hm Hd.
  repeat (destruct Cm as [-> | Cm]); try subst m;
    (repeat (destruct Cd as [-> | Cd]); try subst d;
     vm_compute; reflexivity).
Qed.

Lemma days_in_month_le_31 (y m : Z) : days_in_month y m <= 31.
Proof.
  unfold days_in_month.
  destruct (m =? 2); [destruct (is_leap y); lia|].
  destruct (_ || _); lia.
Qed.

Lemma ymd2ord_bounds (y m d ord : Z) :
  ymd2ord y m d = Some ord ->
  1 <= y <= 9999 /\ 1 <= m <= 12 /\ 1 <= d <= 31.
Proof.
  unfold ymd2ord. intros H.
  destruct (_ && _) eqn:E; [|discriminate].
  rewrite !andb_true_iff, !Z.leb_le in E.
  pose proof (days_in_month_le_31 y m). lia.
Qed.

Lemma year_digits (y : Z) :
  1000 <= y <= 9999 ->
  0 <= y / 1000 <= 9 /\ 0 <= y / 100 mod 10 <= 9
  /\ 0 <= y / 10 mod 10 <= 9 /\ 0 <= y mod 10 <= 9
  /\ 1000 * (y / 1000) + 100 * (y / 100 mod 10) + 10 * (y / 10 mod 10)
     + y mod 10 = y.
Proof. intros H. repeat split; Z.div_mod_to_equations; lia. Qed.

Lemma strptime_strftime (d : Dashboard.date) (ord : Z) :
  1000 <= Dashboard.year d ->
  Dashboard.toordinal d = Some ord ->
  strptime (Dashboard.strftime d) = Some ord.
Proof.
  destruct d as [y m dd]. unfold Dashboard.toordinal.
  cbn [Dashboard.year Dashboard.month Dashboard.day]. intros Hy Hord.
  destruct (ymd2ord_bounds _ _ _ Hord) as [By [Bm Bd]].
  destruct (@year_digits y) as [D1 [D2 [D3 [D4 Dy]]]]; [lia|].
  unfold strptime, Dashboard.strftime.
  cbn [Dashboard.year Dashboard.month Dashboard.day].
  rewrite list_ascii_of_string_of_list_ascii.
  unfold regex_ymd, group_Y.
  rewrite (digit_digit_char D1), (digit_digit_char D2),
    (digit_digit_char D3), (digit_digit_char D4).
  cbn [first_match]. rewrite dash_cons.
  rewrite (regex_month_day _ Bm Bd), Dy. exact Hord.
Qed.

(** X13. The strings the page builds from the two date pickers always
    pass the date validation of the queries: for dates of year 1000 or
    later, [strptime] reads [strftime('%Y-%m-%d')] back as the same day,
    so the validation of lines 47-51 and 121-125 succeeds. *)
Theorem X13_picker_dates_parse_back :
  forall (start_date end_date : Dashboard.date) (ds de : Z),
    1000 <= Dashboard.year start_date ->
    1000 <= Dashboard.year end_date ->
    Dashboard.toordinal start_date = Some ds ->
    Dashboard.toordinal end_date = Some de ->
    strptime (Dashboard.strftime start_date) = Some ds
    /\ strptime (Dashboard.strftime end_date) = Some de
    /\ Queries.validate (Dashboard.strftime start_date)
         (Dashboard.strftime end_date) = Return tt.
Proof.
  intros sd ed ds de Hys Hye Hs He.
  pose proof (strptime_strftime sd Hys Hs) as H1.
  pose proof (strptime_strftime ed Hye He) as H2.
  split; [exact H1|]. split; [exact H2|].
  unfold Queries.validate. now rewrite H1, H2.
Qed.

End DateStrings.

Section PageFacts.
Import Queries.
Local Open Scope Q_scope.

Variable rng_state : Type.
Variable seed : Z -> rng_state.
Variable uniform : Q -> Q -> rng_state -> Q * rng_state.
Variable import_world : SampleData.world rng_state.
Variable Timestamp : string -> option Z.
Variable bigquery_sopr : string -> string -> attempt.
Variable bigquery_prices : string -> string -> attempt.

Local Abbreviation query_sopr :=
  (query_sopr seed uniform import_world Timestamp bigquery_sopr).
Local Abbreviation query_prices :=
  (query_prices import_world Timestamp bigquery_prices).
Local Abbreviation SAMPLE_SOPR_DATA :=
  (SAMPLE_SOPR_DATA seed uniform import_world).
Local Abbreviation SAMPLE_PRICES := (SAMPLE_PRICES import_world).
Local Abbreviation today := (SampleData.today import_world).
Local Abbreviation load_data :=
  (Dashboard.load_data seed uniform import_world Timestamp bigquery_sopr
     bigquery_prices).

(** With dates that parse and that pandas reads, neither query raises. *)
Lemma query_sopr_returns (s e : string) (ds de : Z) (use_sample : bool) :
  valid_date Timestamp s ds -> valid_date Timestamp e de ->
  exists df, snd (query_sopr s e use_sample) = Return df.
Proof.
  intros [Hs Hs'] [He He']. destruct use_sample.
  - rewrite query_sopr_sample,
      (@between_valid Timestamp _ s e ds de Hs' He').
    eexists. reflexivity.
  - rewrite query_sopr_live, (@validate_valid s e ds de Hs He),
      (@between_valid Timestamp _ s e ds de Hs' He').
    destruct (try_sopr bigquery_sopr s e) as [log [df|ex]];
      eexists; reflexivity.
Qed.

Lemma query_prices_returns (s e : string) (ds de : Z) (use_sample : bool) :
  valid_date Timestamp s ds -> valid_date Timestamp e de ->
  exists df, snd (query_prices s e use_sample) = Return df.
Proof.
  intros [Hs Hs'] [He He']. destruct use_sample.
  - rewrite query_prices_sample,
      (@between_valid Timestamp _ s e ds de Hs' He').
    eexists. reflexivity.
  - rewrite query_prices_live, (@validate_valid s e ds de Hs He),
      (@between_valid Timestamp _ s e ds de Hs' He').
    destruct (try_prices bigquery_prices s e) as [log [df|ex]];
      eexists; reflexivity.
Qed.

(** X14. The page never shows its failed-to-load error for dates chosen
    in the pickers: for two dates of year 1000 or later whose strings
    pandas reads as those days, the data is loaded with both frames,
    with the sample toggle on or off and whatever the remote side does. *)
Theorem X14_page_always_loads :
  forall (start_date end_date : Dashboard.date) (ds de : Z)
         (use_sample_sopr : bool),
    (1000 <= Dashboard.year start_date)%Z ->
    (1000 <= Dashboard.year end_date)%Z ->
    Dashboard.toordinal start_date = Some ds ->
    Dashboard.toordinal end_date = Some de ->
    Timestamp (Dashboard.strftime start_date) = Some ds ->
    Timestamp (Dashboard.strftime end_date) = Some de ->
    exists sopr_df prices_df,
      snd (load_data start_date end_date use_sample_sopr)
      = Dashboard.DataLoaded sopr_df prices_df.
Proof.
  intros sd ed ds de u Hys Hye Hs He Hts Hte.
  assert (Vs : valid_date Timestamp (Dashboard.strftime sd) ds)
    by (split; [now apply strptime_strftime|exact Hts]).
  assert (Ve : valid_date Timestamp (Dashboard.strftime ed) de)
    by (split; [now apply strptime_strftime|exact Hte]).
  unfold Dashboard.load_data, Dashboard.fetch_sopr_data,
    Dashboard.fetch_price_data.
  destruct (query_sopr_returns u Vs Ve) as [sopr_df Hsopr].
  destruct (query_prices_returns false Vs Ve) as [prices_df Hprices].
  destruct (query_sopr _ _ u) as [log1 r1]. cbn [snd] in Hsopr. subst r1.
  destruct (query_prices _ _ false) as [log2 r2]. cbn [snd] in Hprices.
  subst r2. eexists. eexists. reflexivity.
Qed.

(** *** The metrics row *)

(** X15. The sentiment card never contradicts the break-even card: the
    sentiment is profit taking or neutral exactly when the SOPR card says
    above break-even in the normal colour, and mild fear or capitulation
    exactly when it says below break-even in the inverse colour. *)
Theorem X15_sentiment_agrees_with_break_even :
  forall (current_sopr : Q),
    match Dashboard.market_sentiment current_sopr with
    | Dashboard.ProfitTaking | Dashboard.Neutral =>
        1 <= current_sopr
        /\ Dashboard.sopr_delta current_sopr
           = (Dashboard.AboveBreakEven, Dashboard.normal)
    | Dashboard.MildFear | Dashboard.Capitulation =>
        current_sopr < 1
        /\ Dashboard.sopr_delta current_sopr
           = (Dashboard.BelowBreakEven, Dashboard.inverse)
    end.
Proof.
  intros x. unfold Dashboard.market_sentiment, Dashboard.sopr_delta.
  destruct (Qle_bool (105 # 100) x) eqn:E1.
  - apply Qle_bool_iff in E1.
    assert (H : 1 <= x) by lra.
    pose proof H as H'. apply Qle_bool_iff in H'. rewrite H'. now split.
  - destruct (Qle_bool 1 x) eqn:E2.
    + apply Qle_bool_iff in E2. now split.
    + assert (H : x < 1).
      { apply Qnot_le_lt. intros Hle. apply Qle_bool_iff in Hle. congruence. }
      destruct (Qle_bool (95 # 100) x); now split.
Qed.

Lemma last_In {A} (l : list A) (d : A) : l <> [] -> In (last l d) l.
Proof.
  induction l as [|a l IH]; intros H; [contradiction|].
  destruct l as [|b l]; [now left|]. right. apply IH. discriminate.
Qed.

Lemma StronglySorted_map_seq {A} (R : A -> A -> Prop) (f : nat -> A)
  (a n : nat) :
  (forall i j, (i < j)%nat -> R (f i) (f j)) ->
  StronglySorted R (map f (seq a n)).
Proof.
  intros HR. revert a. induction n as [|n IH]; intros a; simpl;
    constructor; [apply IH|].
  apply Forall_forall. intros x Hx. apply in_map_iff in Hx.
  destruct Hx as [j [<- Hj]]. apply in_seq in Hj. apply HR. lia.
Qed.

(** The sample prices rise from row to row and start at 42000. *)
Lemma sample_prices_rising (f : Z * Q -> bool) :
  StronglySorted (fun a b => snd a < snd b) (filter f (rows SAMPLE_PRICES))
  /\ Forall (fun r => 42000 <= snd r) (filter f (rows SAMPLE_PRICES)).
Proof.
  rewrite SAMPLE_PRICES_rows. split.
  - apply StronglySorted_filter, StronglySorted_map_seq.
    intros i j Hij. cbn [snd]. rewrite <- Zlt_Qlt. lia.
  - apply Forall_forall. intros r Hr. apply filter_In in Hr.
    destruct Hr as [Hr _]. apply in_map_iff in Hr.
    destruct Hr as [i [<- _]]. cbn [snd].
    change 42000 with (inject_Z 42000). rewrite <- Zle_Qle. lia.
Qed.

(** X16. When the price query falls back to the sample prices, the page
    reads the frame as if it were newest first although it is oldest
    first: with more than one row, the price shown as current is the
    lowest of the range and the change shown is negative, while the
    sample prices rise every day. *)
Theorem X16_fallback_price_metrics_read_backwards :
  forall (start_date end_date : string) (ds de : Z),
    valid_date Timestamp start_date ds ->
    valid_date Timestamp end_date de ->
    attempt_raises (bigquery_prices start_date end_date) ->
    exists prices_df,
      snd (query_prices start_date end_date false) = Return prices_df
      /\ ((1 < len prices_df)%nat ->
          exists current_price price_change,
            Dashboard.price_metrics prices_df
            = Some (current_price, price_change)
            /\ price_change < 0
            /\ (forall d price, In (d, price) (rows prices_df) ->
                  current_price <= price)
            /\ StronglySorted (fun a b => snd a < snd b) (rows prices_df)).
Proof.
  intros s e ds de [Hs Hs'] [He He'] Hraise.
  rewrite query_prices_live, (@validate_valid s e ds de Hs He),
    (@between_valid Timestamp _ s e ds de Hs' He').
  pose proof (try_prices_cases bigquery_prices s e) as Hc.
  destruct (try_prices bigquery_prices s e) as [log [df|ex]].
  { destruct Hc as [_ Hc]. rewrite Hc in Hraise. destruct Hraise. }
  clear Hc. eexists. cbn [snd]. split; [reflexivity|].
  destruct (sample_prices_rising (within ds de)) as [Hsorted Hpos].
  unfold Dashboard.price_metrics, Dashboard.has_price_column, empty, len,
    values, rename_price_usd.
  cbn [rows columns].
  change (columns SAMPLE_PRICES) with ["date"; "price_usd"]%string.
  cbn [map String.eqb Ascii.eqb Bool.eqb existsb andb orb negb].
  destruct (filter (within ds de) (rows SAMPLE_PRICES)) as [|r0 rest];
    [cbn; lia|].
  destruct rest as [|r1 rest]; [cbn; lia|].
  intros _. cbn [List.length Nat.ltb Nat.leb map negb andb].
  inversion Hsorted as [|? ? Hsorted' Hall]; subst.
  set (final := last (snd r1 :: map snd rest) (snd r0)).
  assert (Hfin : In final (map snd (r1 :: rest)))
    by (apply (@last_In Q (snd r1 :: map snd rest)); discriminate).
  apply in_map_iff in Hfin. destruct Hfin as [rf [Hrf Hin]].
  rewrite Forall_forall in Hall, Hpos.
  assert (Hlt : snd r0 < final) by (rewrite <- Hrf; now apply Hall).
  assert (Hbig : 42000 <= final)
    by (rewrite <- Hrf; apply Hpos; now right).
  assert (Hne : Qeq_bool final 0 = false).
  { destruct (Qeq_bool final 0) eqn:E; [|reflexivity].
    apply Qeq_bool_iff in E. lra. }
  rewrite Hne. eexists. eexists. split; [reflexivity|]. split; [|split].
  - assert (Hdiv : snd r0 / final < 1)
      by (apply Qlt_shift_div_r; lra).
    lra.
  - intros d price [Heq | Hin'].
    + rewrite Heq. cbn [snd]. lra.
    + exact (Qlt_le_weak _ _ (Hall (d, price) Hin')).
  - constructor; [exact Hsorted'|]. now apply Forall_forall.
Qed.

Lemma Qsum_in_band (l : list Q) :
  Forall in_band l ->
  (85 # 100) * inject_Z (Z.of_nat (List.length l)) <= Dashboard.Qsum l
  /\ Dashboard.Qsum l <= (115 # 100) * inject_Z (Z.of_nat (List.length l)).
Proof.
  induction 1 as [|v l Hv Hl IH]; [split; unfold Qle; cbn; lia|].
  cbn [List.length Dashboard.Qsum fold_right].
  fold (Dashboard.Qsum l).
  rewrite Nat2Z.inj_succ, <- Z.add_1_r, inject_Z_plus.
  change (inject_Z 1) with 1. unfold in_band in Hv. lra.
Qed.

Lemma SAMPLE_SOPR_DATA_in_band :
  Forall in_band (values SAMPLE_SOPR_DATA).
Proof.
  unfold Queries.SAMPLE_SOPR_DATA, SampleData.SAMPLE_SOPR_DATA.
  rewrite generate_values. apply sopr_walk_in_band.
Qed.

(** X17. On sample SOPR data the metrics row is well defined: for valid
    dates and a non-empty result, the current SOPR and the period average
    both lie between 0.85 and 1.15, so the average is positive and the
    comparison of the current value with it divides by no zero. *)
Theorem X17_sample_metrics_in_band :
  forall (start_date end_date : string) (ds de : Z),
    valid_date Timestamp start_date ds ->
    valid_date Timestamp end_date de ->
    exists sopr_df,
      snd (query_sopr start_date end_date true) = Return sopr_df
      /\ (rows sopr_df <> [] ->
          exists average,
            Dashboard.avg_sopr sopr_df = Some average
            /\ 85 # 100 <= average <= 115 # 100
            /\ 85 # 100 <= Dashboard.current_sopr sopr_df <= 115 # 100).
Proof.
  intros s e ds de [_ Hs] [_ He].
  rewrite query_sopr_sample, (@between_valid Timestamp _ s e ds de Hs He).
  eexists. cbn [snd]. split; [reflexivity|]. cbn [rows].
  assert (Hband : Forall in_band
            (map snd (filter (within ds de) (rows SAMPLE_SOPR_DATA)))).
  { apply Forall_forall. intros v Hv. apply in_map_iff in Hv.
    destruct Hv as [r [<- Hr]]. apply filter_In in Hr. destruct Hr as [Hr _].
    pose proof SAMPLE_SOPR_DATA_in_band as Hall.
    rewrite Forall_forall in Hall. apply Hall. unfold values.
    now apply in_map. }
  unfold Dashboard.avg_sopr, Dashboard.current_sopr, values. cbn [rows].
  destruct (filter (within ds de) (rows SAMPLE_SOPR_DATA)) as [|r rs];
    [intros H; now elim H|].
  intros _. cbn [map] in *. eexists. split; [reflexivity|].
  pose proof (Qsum_in_band Hband) as [Hlo Hhi].
  set (n := inject_Z (Z.of_nat (List.length (snd r :: map snd rs)))) in *.
  assert (Hn : 0 < n).
  { subst n. change 0 with (inject_Z 0). rewrite <- Zlt_Qlt.
    cbn [List.length]. lia. }
  split; [split|].
  - apply Qle_shift_div_l; [exact Hn|exact Hlo].
  - apply Qle_shift_div_r; [exact Hn|exact Hhi].
  - inversion Hband; subst. assumption.
Qed.

End PageFacts.

(* ===================================================================== *)
(** * The further properties at concrete inputs *)
(* ===================================================================== *)

Lemma X1_sopr_fallback_witness :
  let sql_file_missing := fun _ _ : string =>
                            Queries.FailsEarly FileNotFoundError in
  Queries.validate "2024-01- 5" "2024-01-31" = Return tt
  /\ Queries.attempt_raises
       (sql_file_missing "2024-01- 5"%string "2024-01-31"%string)
  /\ Queries.fallbacks
       (fst (Queries.query_sopr SampleData.lcg_seed SampleData.lcg_uniform
               Demo.import_world Demo.Timestamp_no_blank sql_file_missing
               "2024-01- 5" "2024-01-31" false)) = 1%nat
  /\ snd (Queries.query_sopr SampleData.lcg_seed SampleData.lcg_uniform
            Demo.import_world Demo.Timestamp_no_blank sql_file_missing
            "2024-01- 5" "2024-01-31" false)
     = snd (Queries.query_sopr SampleData.lcg_seed SampleData.lcg_uniform
              Demo.import_world Demo.Timestamp_no_blank sql_file_missing
              "2024-01- 5" "2024-01-31" true).
Proof.
  intros sql_file_missing.
  assert (Hv : Queries.validate "2024-01- 5" "2024-01-31" = Return tt)
    by reflexivity.
  destruct (@X1_sopr_fallback_outcome _ SampleData.lcg_seed
              SampleData.lcg_uniform Demo.import_world
              Demo.Timestamp_no_blank sql_file_missing
              "2024-01- 5" "2024-01-31" Hv I)
    as [Hone [Hsame _]].
  split; [exact Hv|]. split; [exact I|]. split; [exact Hone|exact Hsame].
Defined.

Lemma X2_invalid_dates_witness :
  Calendar.strptime "2024-02-30" = None
  /\ Queries.query_sopr SampleData.lcg_seed SampleData.lcg_uniform
       Demo.import_world Demo.Timestamp Demo.bigquery_empty
       "2024-02-30" "2024-03-01" false
     = ([], Raise (ValueError "Invalid date format. Use YYYY-MM-DD"))
  /\ Queries.query_prices Demo.import_world Demo.Timestamp
       Demo.bigquery_empty "2024-02-30" "2024-03-01" false
     = ([], Raise (ValueError "Invalid date format. Use YYYY-MM-DD")).
Proof.
  split; [reflexivity|].
  exact (@X2_invalid_dates_stop_live_queries _ SampleData.lcg_seed
           SampleData.lcg_uniform Demo.import_world Demo.Timestamp
           Demo.bigquery_empty Demo.bigquery_empty
           "2024-02-30" "2024-03-01" (or_introl eq_refl)).
Defined.

Lemma X3_remote_errors_witness :
  snd (Queries.query_sopr SampleData.lcg_seed SampleData.lcg_uniform
         Demo.import_world Demo.Timestamp Demo.bigquery_down
         "2024/01/01" "2024-01-31" true) = Raise TypeError
  /\ (TypeError = ValueError "Invalid date format. Use YYYY-MM-DD"
      \/ TypeError = TypeError).
Proof.
  assert (H : snd (Queries.query_sopr SampleData.lcg_seed
                     SampleData.lcg_uniform Demo.import_world Demo.Timestamp
                     Demo.bigquery_down "2024/01/01" "2024-01-31" true)
              = Raise TypeError) by reflexivity.
  split; [exact H|].
  exact (@X3_remote_errors_never_escape _ SampleData.lcg_seed
           SampleData.lcg_uniform Demo.import_world Demo.Timestamp
           Demo.bigquery_down Demo.bigquery_down
           "2024/01/01" "2024-01-31" true TypeError (or_introl H)).
Defined.

Lemma X4_sample_sopr_rows_witness :
  valid_date Demo.Timestamp "2023-12-25" 738879
  /\ valid_date Demo.Timestamp "2024-01-31" 738916
  /\ exists df,
       snd (Queries.query_sopr SampleData.lcg_seed SampleData.lcg_uniform
              Demo.import_world Demo.Timestamp Demo.bigquery_down
              "2023-12-25" "2024-01-31" true) = Return df
       /\ (forall d, In d (dates df)
                     <-> (738879 <= d <= 738916
                          /\ 738886 - 29 <= d <= 738886)%Z)
       /\ NoDup (dates df)
       /\ StronglySorted Z.gt (dates df).
Proof.
  assert (Hs : valid_date Demo.Timestamp "2023-12-25" 738879)
    by (split; reflexivity).
  assert (He : valid_date Demo.Timestamp "2024-01-31" 738916)
    by (split; reflexivity).
  split; [exact Hs|]. split; [exact He|].
  exact (@X4_sample_sopr_rows_exact _ SampleData.lcg_seed
           SampleData.lcg_uniform Demo.import_world Demo.Timestamp
           Demo.bigquery_down "2023-12-25" "2024-01-31" _ _ Hs He).
Defined.

Lemma X5_sample_prices_witness :
  valid_date Demo.Timestamp "2023-12-25" 738879
  /\ valid_date Demo.Timestamp "2024-01-31" 738916
  /\ exists df,
       snd (Queries.query_prices Demo.import_world Demo.Timestamp
              Demo.bigquery_down "2023-12-25" "2024-01-31" true) = Return df
       /\ columns df = ["date"; "price"]%string
       /\ StronglySorted Z.lt (dates df).
Proof.
  assert (Hs : valid_date Demo.Timestamp "2023-12-25" 738879)
    by (split; reflexivity).
  assert (He : valid_date Demo.Timestamp "2024-01-31" 738916)
    by (split; reflexivity).
  split; [exact Hs|]. split; [exact He|].
  destruct (@X5_sample_prices_shape _ Demo.import_world Demo.Timestamp
              Demo.bigquery_down "2023-12-25" "2024-01-31" _ _ Hs He)
    as [df [H1 [H2 [H3 _]]]].
  exists df. split; [exact H1|]. split; [exact H2|exact H3].
Defined.

Lemma X8_successful_load_witness :
  LoadPrices.validate_config Demo.GCP_PROJECT_ID = Return true
  /\ In (LoadPrices.lower (LoadPrices.strip " Y ")) ["yes"; "y"]%string
  /\ Demo.history_one "2019-01-01" "2024-01-02" = Return [Demo.a_quote]
  /\ [Demo.a_quote] <> []
  /\ Demo.load_ok (map LoadPrices.to_price_row [Demo.a_quote]) = None
  /\ snd (fst (LoadPrices.main Demo.GCP_PROJECT_ID "2019-01-01" "2024-01-02"
                 " Y " Demo.history_one Demo.load_ok Demo.warehouse_100))
     = Return LoadPrices.Loaded
  /\ LoadPrices.table
       (snd (LoadPrices.main Demo.GCP_PROJECT_ID "2019-01-01" "2024-01-02"
               " Y " Demo.history_one Demo.load_ok Demo.warehouse_100))
     = Some [LoadPrices.to_price_row Demo.a_quote].
Proof.
  assert (Hyes : In (LoadPrices.lower (LoadPrices.strip " Y "))
                    ["yes"; "y"]%string) by (right; left; reflexivity).
  assert (Hne : [Demo.a_quote] <> []) by discriminate.
  destruct (@X8_successful_load_overwrites Demo.GCP_PROJECT_ID
              "2019-01-01" "2024-01-02" Demo.history_one Demo.load_ok
              " Y " Demo.warehouse_100 [Demo.a_quote]
              eq_refl (or_intror Hyes) eq_refl Hne eq_refl)
    as [H1 [H2 _]].
  split; [reflexivity|]. split; [exact Hyes|]. split; [reflexivity|].
  split; [exact Hne|]. split; [reflexivity|].
  split; [exact H1|exact H2].
Defined.

Lemma X9_fetch_failure_witness :
  let unreachable := fun _ _ : string =>
        @Raise (list LoadPrices.quote) (OtherException "ConnectionError") in
  unreachable "2019-01-01"%string "2024-01-02"%string
  = Raise (OtherException "ConnectionError")
  /\ LoadPrices.validate_config Demo.GCP_PROJECT_ID = Return true
  /\ In (LoadPrices.lower (LoadPrices.strip "yes")) ["yes"; "y"]%string
  /\ snd (LoadPrices.main Demo.GCP_PROJECT_ID "2019-01-01" "2024-01-02"
            "yes" unreachable Demo.load_ok Demo.warehouse_100)
     = Demo.warehouse_100
  /\ snd (fst (LoadPrices.main Demo.GCP_PROJECT_ID "2019-01-01" "2024-01-02"
                 "yes" unreachable Demo.load_ok Demo.warehouse_100))
     = Raise (OtherException "ConnectionError").
Proof.
  intros unreachable.
  assert (Hyes : In (LoadPrices.lower (LoadPrices.strip "yes"))
                    ["yes"; "y"]%string) by (left; reflexivity).
  destruct (@X9_fetch_failure_is_fatal Demo.GCP_PROJECT_ID
              "2019-01-01" "2024-01-02" unreachable Demo.load_ok
              "yes" Demo.warehouse_100 (OtherException "ConnectionError")
              eq_refl)
    as [H1 H2].
  split; [reflexivity|]. split; [reflexivity|]. split; [exact Hyes|].
  split; [exact H1|exact (H2 eq_refl (or_intror Hyes))].
Defined.

Lemma X10_no_prompt_witness :
  (LoadPrices.table (LoadPrices.mkWarehouse None []) = None
   \/ LoadPrices.table (LoadPrices.mkWarehouse None []) = Some [])
  /\ LoadPrices.main Demo.GCP_PROJECT_ID "2019-01-01" "2024-01-02" "no"
       Demo.history_one Demo.load_ok (LoadPrices.mkWarehouse None [])
     = LoadPrices.main Demo.GCP_PROJECT_ID "2019-01-01" "2024-01-02" "yes"
         Demo.history_one Demo.load_ok (LoadPrices.mkWarehouse None []).
Proof.
  split; [left; reflexivity|].
  exact (@X10_no_prompt_without_rows Demo.GCP_PROJECT_ID
           "2019-01-01" "2024-01-02" Demo.history_one Demo.load_ok
           (LoadPrices.mkWarehouse None []) "no" "yes"
           (or_introl eq_refl)).
Defined.

Lemma X11_blank_answer_witness :
  LoadPrices.validate_config Demo.GCP_PROJECT_ID = Return true
  /\ LoadPrices.table Demo.warehouse_100 = Some Demo.hundred_rows
  /\ Demo.hundred_rows <> []
  /\ blank_answer "  "
  /\ LoadPrices.main Demo.GCP_PROJECT_ID "2019-01-01" "2024-01-02" "  "
       Demo.history_one Demo.load_ok Demo.warehouse_100
     = (([LoadPrices.TableAlreadyContains 100; LoadPrices.OperationCancelled],
         Return LoadPrices.Cancelled), Demo.warehouse_100).
Proof.
  assert (Hne : Demo.hundred_rows <> []) by discriminate.
  assert (Hblank : blank_answer "  ")
    by (repeat constructor).
  split; [reflexivity|]. split; [reflexivity|]. split; [exact Hne|].
  split; [exact Hblank|].
  exact (@X11_blank_answer_cancels Demo.GCP_PROJECT_ID
           "2019-01-01" "2024-01-02" Demo.history_one Demo.load_ok
           "  " Demo.warehouse_100 Demo.hundred_rows
           eq_refl eq_refl Hne Hblank).
Defined.

Lemma X13_picker_dates_witness :
  (1000 <= 2024)%Z
  /\ Dashboard.toordinal (Dashboard.mkDate 2024 2 29) = Some 738945%Z
  /\ Dashboard.toordinal (Dashboard.mkDate 2024 3 1) = Some 738946%Z
  /\ Calendar.strptime (Dashboard.strftime (Dashboard.mkDate 2024 2 29))
     = Some 738945%Z
  /\ Queries.validate (Dashboard.strftime (Dashboard.mkDate 2024 2 29))
       (Dashboard.strftime (Dashboard.mkDate 2024 3 1)) = Return tt.
Proof.
  assert (Hy : (1000 <= 2024)%Z) by lia.
  destruct (@X13_picker_dates_parse_back (Dashboard.mkDate 2024 2 29)
              (Dashboard.mkDate 2024 3 1) 738945 738946 Hy Hy
              eq_refl eq_refl)
    as [H1 [_ H3]].
  split; [exact Hy|]. split; [reflexivity|]. split; [reflexivity|].
  split; [exact H1|exact H3].
Defined.

Lemma X14_page_loads_witness :
  (1000 <= 2023)%Z /\ (1000 <= 2024)%Z
  /\ Dashboard.toordinal (Dashboard.mkDate 2023 12 25) = Some 738879%Z
  /\ Dashboard.toordinal (Dashboard.mkDate 2024 1 1) = Some 738886%Z
  /\ Demo.Timestamp (Dashboard.strftime (Dashboard.mkDate 2023 12 25))
     = Some 738879%Z
  /\ Demo.Timestamp (Dashboard.strftime (Dashboard.mkDate 2024 1 1))
     = Some 738886%Z
  /\ exists sopr_df prices_df,
       snd (Dashboard.load_data SampleData.lcg_seed SampleData.lcg_uniform
              Demo.import_world Demo.Timestamp Demo.bigquery_down
              Demo.bigquery_down (Dashboard.mkDate 2023 12 25)
              (Dashboard.mkDate 2024 1 1) false)
       = Dashboard.DataLoaded sopr_df prices_df.
Proof.
  assert (H1 : (1000 <= 2023)%Z) by lia.
  assert (H2 : (1000 <= 2024)%Z) by lia.
  split; [exact H1|]. split; [exact H2|].
  split; [reflexivity|]. split; [reflexivity|].
  split; [reflexivity|]. split; [reflexivity|].
  exact (@X14_page_always_loads _ SampleData.lcg_seed SampleData.lcg_uniform
           Demo.import_world Demo.Timestamp Demo.bigquery_down
           Demo.bigquery_down (Dashboard.mkDate 2023 12 25)
           (Dashboard.mkDate 2024 1 1) 738879 738886 false
           H1 H2 eq_refl eq_refl eq_refl eq_refl).
Defined.

Lemma X16_fallback_price_metrics_witness :
  valid_date Demo.Timestamp "2023-12-30" 738884
  /\ valid_date Demo.Timestamp "2024-01-31" 738916
  /\ Queries.attempt_raises (Demo.bigquery_down "2023-12-30" "2024-01-31")
  /\ exists prices_df current_price price_change,
       snd (Queries.query_prices Demo.import_world Demo.Timestamp
              Demo.bigquery_down "2023-12-30" "2024-01-31" false)
       = Return prices_df
       /\ (1 < len prices_df)%nat
       /\ Dashboard.price_metrics prices_df
          = Some (current_price, price_change)
       /\ (price_change < 0)%Q.
Proof.
  assert (Hs : valid_date Demo.Timestamp "2023-12-30" 738884)
    by (split; reflexivity).
  assert (He : valid_date Demo.Timestamp "2024-01-31" 738916)
    by (split; reflexivity).
  split; [exact Hs|]. split; [exact He|]. split; [exact I|].
  destruct (@X16_fallback_price_metrics_read_backwards _ Demo.import_world
              Demo.Timestamp Demo.bigquery_down "2023-12-30" "2024-01-31"
              _ _ Hs He I)
    as [df [Hdf Hmetrics]].
  assert (Hlen : (1 < len df)%nat).
  { pose proof Hdf as Hdf'. vm_compute in Hdf'.
    injection Hdf' as Hdf'. subst df. vm_compute. lia. }
  destruct (Hmetrics Hlen) as [current [change [Hm [Hneg _]]]].
  exists df, current, change.
  split; [exact Hdf|]. split; [exact Hlen|]. split; [exact Hm|exact Hneg].
Defined.

Lemma X17_sample_metrics_witness :
  valid_date Demo.Timestamp "2023-12-30" 738884
  /\ valid_date Demo.Timestamp "2024-01-31" 738916
  /\ exists sopr_df average,
       snd (Queries.query_sopr SampleData.lcg_seed SampleData.lcg_uniform
              Demo.import_world Demo.Timestamp Demo.bigquery_down
              "2023-12-30" "2024-01-31" true) = Return sopr_df
       /\ rows sopr_df <> []
       /\ Dashboard.avg_sopr sopr_df = Some average
       /\ (85 # 100 <= average <= 115 # 100)%Q.
Proof.
  assert (Hs : valid_date Demo.Timestamp "2023-12-30" 738884)
    by (split; reflexivity).
  assert (He : valid_date Demo.Timestamp "2024-01-31" 738916)
    by (split; reflexivity).
  split; [exact Hs|]. split; [exact He|].
  destruct (@X17_sample_metrics_in_band _ SampleData.lcg_seed
              SampleData.lcg_uniform Demo.import_world Demo.Timestamp
              Demo.bigquery_down "2023-12-30" "2024-01-31" _ _ Hs He)
    as [df [Hdf Hmetrics]].
  assert (Hne : rows df <> []).
  { pose proof Hdf as Hdf'. vm_compute in Hdf'.
    injection Hdf' as Hdf'. subst df. discriminate. }
  destruct (Hmetrics Hne) as [average [Ha [Hband _]]].
  exists df, average.
  split; [exact Hdf|]. split; [exact Hne|]. split; [exact Ha|exact Hband].
Defined.

Lemma X18_unset_project_witness :
  (@None string = None \/ @None string = Some EmptyString)
  /\ LoadPrices.main None "2019-01-01" "2024-01-02" "yes"
       Demo.history_one Demo.load_ok Demo.warehouse_100
     = (([], Raise (ValueError "GCP_PROJECT_ID environment variable not set")),
        Demo.warehouse_100).
Proof.
  split; [left; reflexivity|].
  exact (@X18_unset_project_stops_job None "2019-01-01" "2024-01-02"
           Demo.history_one Demo.load_ok "yes" Demo.warehouse_100
           (or_introl eq_refl)).
Defined.
